(** * cbconf: layered settings resolution, embedded from the Python sources

    The development follows the package layout:
    - [PyStr], [PyDict]: the fragments of Python's [str] and [dict] the
      package relies on (insertion-ordered dictionaries, [str.split] with
      its empty-separator error, [str.strip], [str.lower]);
    - [deep_update]: pydantic's recursive dictionary merge;
    - [EnvSource], [SecretsSource], [IniFileSource], [InitSource]:
      [cbconf/sources.py];
    - [Registry]: [cbconf/registry.py];
    - [Settings]: [Settings._build_values] of [cbconf/settings.py];
    - [DelimitedList]: [cbconf/validators.py].

    Text is modelled as byte strings restricted to ASCII: [str.lower] and
    [str.strip] act on the ASCII letters and the ASCII white space only. *)

From Stdlib Require Import ZArith Ascii String List Lia Sorted.
From stdpp Require Import base option list strings gmap.

#[local] Set Warnings "-register-all".
#[local] Open Scope string_scope.
#[local] Open Scope list_scope.

(* ===================================================================== *)
(** ** Python strings *)
(* ===================================================================== *)

Module PyStr.

(** [str.lower] on one character. *)
Definition lower_char (c : ascii) : ascii :=
  let n := nat_of_ascii c in
  if (65 <=? n)%nat && (n <=? 90)%nat then ascii_of_nat (n + 32) else c.

(** [s.lower()] *)
Fixpoint lower (s : string) : string :=
  match s with
  | EmptyString => EmptyString
  | String c s' => String (lower_char c) (lower s')
  end.

(** The characters [str.strip()] removes: tab, line feed, vertical tab,
    form feed, carriage return, the four separators 0x1c-0x1f and space. *)
Definition is_space (c : ascii) : bool :=
  let n := nat_of_ascii c in
  ((9 <=? n)%nat && (n <=? 13)%nat) || ((28 <=? n)%nat && (n <=? 32)%nat).

Fixpoint lstrip (s : string) : string :=
  match s with
  | EmptyString => EmptyString
  | String c s' => if is_space c then lstrip s' else s
  end.

Fixpoint rstrip (s : string) : string :=
  match s with
  | EmptyString => EmptyString
  | String c s' =>
      match rstrip s' with
      | EmptyString => if is_space c then EmptyString else String c EmptyString
      | r => String c r
      end
  end.

(** [s.strip()] *)
Definition strip (s : string) : string := rstrip (lstrip s).

(** [s.startswith(p)] *)
Definition startswith (s p : string) : bool := String.prefix p s.

(** The scanning loop of [s.split(sep)] for a non-empty [sep]: [skip]
    counts the characters of a separator occurrence still to be passed
    over, [cur] is the piece being accumulated. *)
Fixpoint split_go (sep : string) (skip : nat) (cur s : string) : list string :=
  match s with
  | EmptyString => [cur]
  | String c s' =>
      match skip with
      | S n => split_go sep n cur s'
      | O =>
          if String.prefix sep s
          then cur :: split_go sep (String.length sep - 1) EmptyString s'
          else split_go sep 0 (String.append cur (String c EmptyString)) s'
      end
  end.

(** [s.split(sep)]: [None] stands for [ValueError: empty separator]. *)
Definition split (s sep : string) : option (list string) :=
  match sep with
  | EmptyString => None
  | _ => Some (split_go sep 0 EmptyString s)
  end.

(** [sep.join(l)] *)
Definition join (sep : string) (l : list string) : string := String.concat sep l.

(** Truthiness of a string. *)
Definition truthy (s : string) : bool :=
  match s with EmptyString => false | _ => true end.

End PyStr.

(* ===================================================================== *)
(** ** Values, exceptions, and insertion-ordered dictionaries *)
(* ===================================================================== *)

(** The Python values that flow through the sources: what [json.loads]
    can produce, with [VNone] also standing for a missing dotenv value. *)
Inductive value :=
| VNone
| VBool (b : bool)
| VInt (n : Z)
| VStr (s : string)
| VList (l : list value)
| VDict (d : list (string * value)).

Abbreviation dict := (list (string * value)).

Inductive exn :=
| SettingsError (msg : string)
| ValueError (msg : string)
| KeyError (key : string)
| IndexError
| AttributeError
| TypeError
| ImportError (msg : string)
| ParsingError
| OSError
| UnicodeDecodeError.

Inductive result (A : Type) :=
| Ok (a : A)
| Raise (e : exn).
Arguments Ok {A} a.
Arguments Raise {A} e.

(** Computations that may call [warnings.warn] and may raise. *)
Definition M (A : Type) : Type := (list string * result A)%type.

Definition ret {A} (a : A) : M A := ([], Ok a).
Definition raise {A} (e : exn) : M A := ([], Raise e).
Definition warn (msg : string) : M unit := ([msg], Ok tt).
Definition lift {A} (r : result A) : M A := ([], r).

Definition bind {A B} (m : M A) (f : A -> M B) : M B :=
  match m with
  | (w, Ok a) => let '(w', r) := f a in (w ++ w', r)
  | (w, Raise e) => (w, Raise e)
  end.

Notation "'let*' x ':=' m 'in' k" := (bind m (fun x => k))
  (at level 10, x name, m at level 100, k at level 200).
Notation "m ';;' k" := (bind m (fun _ => k))
  (at level 100, k at level 200, right associativity).

(** A [for] loop threading its accumulator, stopping at the first raise. *)
Fixpoint for_each {A B} (l : list A) (body : B -> A -> M B) (acc : B) : M B :=
  match l with
  | [] => ret acc
  | x :: l' => let* acc' := body acc x in for_each l' body acc'
  end.

Definition warnings {A} (m : M A) : list string := fst m.
Definition outcome {A} (m : M A) : result A := snd m.

Module PyDict.
Section ops.
Context {K V : Type} `{EqDecision K}.

(** [d.get(k)] *)
Fixpoint get (k : K) (d : list (K * V)) : option V :=
  match d with
  | [] => None
  | (k', v) :: r => if decide (k = k') then Some v else get k r
  end.

(** [d[k] = v]: an existing key keeps its position, a new one goes last. *)
Fixpoint set (k : K) (v : V) (d : list (K * V)) : list (K * V) :=
  match d with
  | [] => [(k, v)]
  | (k', v') :: r =>
      if decide (k = k') then (k, v) :: r else (k', v') :: set k v r
  end.

(** [k in d] *)
Definition mem (k : K) (d : list (K * V)) : bool :=
  match get k d with Some _ => true | None => false end.

(** [d.update(e)], also [{**d, **e}] *)
Definition update (d e : list (K * V)) : list (K * V) :=
  fold_left (fun acc kv => set (fst kv) (snd kv) acc) e d.

(** Keys are unique in a Python dictionary. *)
Definition wf (d : list (K * V)) : Prop := NoDup (map fst d).
End ops.
End PyDict.

(** [isinstance(v, dict)] *)
Definition is_dict (v : value) : bool :=
  match v with VDict _ => true | _ => false end.

(** Truthiness of a value. *)
Definition truthy (v : value) : bool :=
  match v with
  | VNone => false
  | VBool b => b
  | VInt n => negb (n =? 0)%Z
  | VStr s => PyStr.truthy s
  | VList l => match l with [] => false | _ => true end
  | VDict d => match d with [] => false | _ => true end
  end.

(** An [Optional[str]] as a value. *)
Definition of_opt_str (o : option string) : value :=
  match o with Some s => VStr s | None => VNone end.

(* ===================================================================== *)
(** ** pydantic.utils.deep_update *)
(* ===================================================================== *)

(** [update_with v] is defined when [v] is a dictionary and is then the
    loop [for k, v' in v.items(): ...] of [deep_update] acting on the
    dictionary under construction.  The recursion of [deep_update] on the
    value stored under a key is the recursive call on [v']. *)
Fixpoint update_with (v : value) : option (dict -> dict) :=
  match v with
  | VDict items =>
      Some ((fix loop (items updated_mapping : dict) {struct items} : dict :=
               match items with
               | [] => updated_mapping
               | (k, v') :: rest =>
                   loop rest
                     match PyDict.get k updated_mapping, update_with v' with
                     | Some (VDict lo), Some f =>
                         PyDict.set k (VDict (f lo)) updated_mapping
                     | _, _ => PyDict.set k v' updated_mapping
                     end
               end) items)
  | _ => None
  end.

(** One [updating_mapping] applied to [updated_mapping]. *)
Definition deep_update1 (updated_mapping updating_mapping : dict) : dict :=
  match update_with (VDict updating_mapping) with
  | Some f => f updated_mapping
  | None => updated_mapping
  end.

(** [deep_update(mapping, *updating_mappings)] *)
Definition deep_update (mapping : dict) (updating_mappings : list dict) : dict :=
  fold_left deep_update1 updating_mappings mapping.

(* ===================================================================== *)
(** ** The schema and the process the sources read from *)
(* ===================================================================== *)

(** [field.field_info.extra["env"]]: one name or an iterable of names. *)
Inductive names :=
| OneName (s : string)
| ManyNames (l : list string).

(** The parts of pydantic's [ModelField] the sources look at.
    [is_complex] is [field.is_complex()], [is_union] is
    [is_union(get_origin(field.type_))], and [sub_fields_complex] lists
    [f.is_complex()] for the [field.sub_fields]. *)
Record ModelField := {
  name : string;
  alias : string;
  is_complex : bool;
  is_union : bool;
  sub_fields_complex : list bool;
  extra_env : option names;
  extra_matchfull : option string;
  extra_ini_section : option string;
  extra_ini : option string
}.

(** [model.__fields__.values()] and [model.__config__.json_loads]; the
    latter returns [None] where Python raises [ValueError]. *)
Record Model := {
  fields : list ModelField;
  json_loads : string -> option value
}.

(** What a path leads to.  [UnreadableFile] is a regular file whose
    [read_text()] raises: [UnicodeDecodeError] when its bytes do not
    decode, [OSError] otherwise. *)
Inductive fs_node :=
| RegularFile (content : string)
| UnreadableFile (undecodable : bool)
| Directory
| Special (kind : string).

(** The exception [path.read_text()] raises on an unreadable file. *)
Definition read_error (undecodable : bool) : exn :=
  if undecodable then UnicodeDecodeError else OSError.

(** A parsed INI document as [configparser.ConfigParser] holds it. *)
Record IniDoc := {
  ini_defaults : list (string * string);
  ini_sections : list (string * list (string * string))
}.

(** The process: environment, file system (paths after [expanduser]),
    and the libraries the sources call.  [dotenv_values] is [None] when
    python-dotenv is not installed; [re_fullmatch pattern s] is
    [match.groups()] of [re.fullmatch(pattern, s)] when there is a match,
    with [None] for a group that did not take part. *)
Record Runtime := {
  os_environ : list (string * string);
  fs : string -> option fs_node;
  dotenv_values : option (string -> list (string * option string));
  re_fullmatch : string -> string -> option (list (option string));
  configparser_read : string -> result IniDoc
}.

Definition path_exists (rt : Runtime) (p : string) : bool :=
  match fs rt p with Some _ => true | None => false end.
Definition path_is_dir (rt : Runtime) (p : string) : bool :=
  match fs rt p with Some Directory => true | _ => false end.
Definition path_is_file (rt : Runtime) (p : string) : bool :=
  match fs rt p with
  | Some (RegularFile _) | Some (UnreadableFile _) => true
  | _ => false
  end.

(** [pydantic.utils.path_type] *)
Definition path_type (rt : Runtime) (p : string) : string :=
  match fs rt p with
  | Some (RegularFile _) | Some (UnreadableFile _) => "file"
  | Some Directory => "directory"
  | Some (Special kind) => kind
  | None => "unknown"
  end.

(** [dir / name] of pathlib: an absolute [name] replaces [dir]. *)
Definition path_join (dir name : string) : string :=
  if PyStr.startswith name "/" then name
  else String.append dir (String.append "/" name).

(** The double quote character, for the messages that quote a name. *)
Definition dquote : string := String (ascii_of_nat 34) EmptyString.

(** [f'error parsing JSON for "{env_name}"'] *)
Definition json_error_message (env_name : string) : string :=
  String.append "error parsing JSON for "
    (String.append dquote (String.append env_name dquote)).

(** The protocol [SettingsSource]: a callable from the model to a mapping. *)
Definition SettingsSource : Type := Runtime -> Model -> M dict.

(** [_get_source_names(field, "env", transform=...)] *)
Definition _get_source_names (field : ModelField)
    (transform : option (string -> string)) : list string :=
  let source_names :=
    match extra_env field with
    | None => [name field]
    | Some (OneName s) => [s]
    | Some (ManyNames l) => l
    end in
  match transform with
  | Some f => map f source_names
  | None => source_names
  end.

Module InitSource.
(** [InitSource(values).__call__]: a copy of the caller's values. *)
Definition call (values : dict) : SettingsSource := fun _ _ => ret values.
End InitSource.

(* ===================================================================== *)
(** ** sources.py: EnvSource *)
(* ===================================================================== *)

Module EnvSource.

Record t := {
  env_file : option string;
  env_file_encoding : option string;
  env_nested_delimiter : option string;
  env_prefix : option string;
  case_sensitive : bool
}.

(** [EnvSource.__init__]: every argument is a keyword with a default;
    [None] for [case_sensitive] means the keyword was not passed. *)
Definition init (env_file env_file_encoding env_nested_delimiter
                 env_prefix : option string)
                (case_sensitive : option bool) : t :=
  {| env_file := env_file;
     env_file_encoding := env_file_encoding;
     env_nested_delimiter := env_nested_delimiter;
     env_prefix := env_prefix;
     case_sensitive := match case_sensitive with Some b => b | None => true end |}.

(** The mapping [env_vars] of names to optional strings. *)
Abbreviation env_map := (list (string * option string)).

(** [{k.lower(): v for k, v in items}] *)
Definition lower_keys {V} (items : list (string * V)) : list (string * V) :=
  fold_left (fun acc kv => PyDict.set (PyStr.lower (fst kv)) (snd kv) acc) items [].

Definition _read_env_file (rt : Runtime) (file_path : string)
    (case_sensitive : bool) : M env_map :=
  match dotenv_values rt with
  | None => raise (ImportError "python-dotenv is not installed")
  | Some parse =>
      let file_vars := parse file_path in
      if negb case_sensitive then ret (lower_keys file_vars) else ret file_vars
  end.

Definition field_is_complex (field : ModelField) : bool * bool :=
  if is_complex field then (true, false)
  else if is_union field
          && negb (match sub_fields_complex field with [] => true | _ => false end)
          && existsb (fun b => b) (sub_fields_complex field)
       then (true, true)
       else (false, false).

(** [_, *keys, last_key = parts]: the split of [x :: l] into all but the
    last element and the last one. *)
Fixpoint init_last (x : string) (l : list string) : list string * string :=
  match l with
  | [] => ([], x)
  | y :: l' => let '(i, z) := init_last y l' in (x :: i, z)
  end.

(** The walk [for key in keys: env_var = env_var.setdefault(key, {})]
    followed by [env_var[last_key] = env_val], as an update of [result]
    along the path.  A value that is not a dictionary on the path makes
    [setdefault] or the item assignment fail. *)
Fixpoint set_nested (keys : list string) (last_key : string) (env_val : value)
    (env_var : dict) : result dict :=
  match keys with
  | [] => Ok (PyDict.set last_key env_val env_var)
  | key :: keys' =>
      match PyDict.get key env_var with
      | None =>
          match set_nested keys' last_key env_val [] with
          | Ok sub => Ok (PyDict.set key (VDict sub) env_var)
          | Raise e => Raise e
          end
      | Some (VDict sub) =>
          match set_nested keys' last_key env_val sub with
          | Ok sub' => Ok (PyDict.set key (VDict sub') env_var)
          | Raise e => Raise e
          end
      | Some _ =>
          match keys' with
          | [] => Raise TypeError
          | _ => Raise AttributeError
          end
      end
  end.

Definition explode_env_vars (env_vars : env_map) (env_names : list string)
    (env_nested_delimiter : option string) : M dict :=
  let env_nested_delimiter :=
    match env_nested_delimiter with
    | Some s => s
    | None => EmptyString
    end in
  let prefixes := map (fun env_name => String.append env_name env_nested_delimiter) env_names in
  for_each env_vars
    (fun result '(env_name, env_val) =>
       if negb (existsb (PyStr.startswith env_name) prefixes) then ret result
       else
         match PyStr.split env_name env_nested_delimiter with
         | None => raise (ValueError "empty separator")
         | Some (_ :: x :: rest) =>
             let '(keys, last_key) := init_last x rest in
             lift (set_nested keys last_key (of_opt_str env_val) result)
         | Some _ => raise (ValueError "not enough values to unpack")
         end)
    [].

(** [groups[i].lower()] *)
Definition group_lower (groups : list (option string)) (i : nat) : M string :=
  match groups !! i with
  | None => raise IndexError
  | Some None => raise AttributeError
  | Some (Some g) => ret (PyStr.lower g)
  end.

(** [d[alias][key] = v] *)
Definition setitem_in (d : dict) (alias key : string) (v : value) : M dict :=
  match PyDict.get alias d with
  | Some (VDict sub) => ret (PyDict.set alias (VDict (PyDict.set key v sub)) d)
  | Some _ => raise TypeError
  | None => raise (KeyError alias)
  end.

(** The branch of [__call__] for a field that declares [matchfull]. *)
Definition call_matchfull (rt : Runtime) (env_vars : env_map)
    (pattern : string) (field : ModelField) (d : dict) : M dict :=
  for_each env_vars
    (fun d '(k, v) =>
       match re_fullmatch rt pattern k with
       | Some groups =>
           let d := if PyDict.mem (alias field) d then d
                    else PyDict.set (alias field) (VDict []) d in
           let* key := (if (length groups =? 1)%nat
                        then group_lower groups 0
                        else group_lower groups 1) in
           setitem_in d (alias field) key (of_opt_str v)
       | None => ret d
       end)
    d.

(** [for env_name in env_names: ... break]: the name the loop stops at
    (the last one when nothing is found, the empty string when there is
    no name) and
    the value found. *)
Fixpoint first_present (env_vars : env_map) (env_names : list string)
    (env_name : string) : string * option string :=
  match env_names with
  | [] => (env_name, None)
  | n :: rest =>
      match PyDict.get n env_vars with
      | Some (Some v) => (n, Some v)
      | _ => first_present env_vars rest n
      end
  end.

(** The [else] branch of [__call__]: lookup by candidate names. *)
Definition call_named (self : t) (model : Model) (env_vars : env_map)
    (field : ModelField) (d : dict) : M dict :=
  let xform := if negb (case_sensitive self) then PyStr.lower else (fun x => x) in
  let env_names := _get_source_names field (Some xform) in
  let env_names :=
    match env_prefix self with
    | Some p => if PyStr.truthy p then map (String.append p) env_names else env_names
    | None => env_names
    end in
  let '(env_name, env_val) := first_present env_vars env_names EmptyString in
  let '(is_complex, allow_json_failure) := field_is_complex field in
  if is_complex then
    match env_val with
    | None =>
        let* env_val_built := explode_env_vars env_vars env_names (env_nested_delimiter self) in
        if truthy (VDict env_val_built)
        then ret (PyDict.set (alias field) (VDict env_val_built) d)
        else ret d
    | Some raw =>
        let* env_val :=
          (match json_loads model raw with
           | Some decoded => ret decoded
           | None =>
               if negb allow_json_failure
               then raise (SettingsError (json_error_message env_name))
               else ret (VStr raw)
           end) in
        match env_val with
        | VDict decoded =>
            let* exploded := explode_env_vars env_vars env_names (env_nested_delimiter self) in
            ret (PyDict.set (alias field) (VDict (deep_update decoded [exploded])) d)
        | _ => ret (PyDict.set (alias field) env_val d)
        end
    end
  else
    match env_val with
    | Some raw => ret (PyDict.set (alias field) (VStr raw) d)
    | None => ret d
    end.

(** The mapping [env_vars] that [__call__] builds before its loop. *)
Definition load_env_vars (self : t) (rt : Runtime) : M env_map :=
  let environ := map (fun kv => (fst kv, Some (snd kv))) (os_environ rt) in
  let env_vars := if case_sensitive self then environ else lower_keys environ in
  match env_file self with
  | Some env_path =>
      if path_is_file rt env_path then
        let* file_vars := _read_env_file rt env_path (case_sensitive self) in
        ret (PyDict.update (PyDict.update [] file_vars) env_vars)
      else ret env_vars
  | None => ret env_vars
  end.

(** [EnvSource.__call__] *)
Definition call (self : t) : SettingsSource := fun rt model =>
  let* env_vars := load_env_vars self rt in
  for_each (fields model)
    (fun d field =>
       match extra_matchfull field with
       | Some pattern =>
           if PyStr.truthy pattern
           then call_matchfull rt env_vars pattern field d
           else call_named self model env_vars field d
       | None => call_named self model env_vars field d
       end)
    [].

End EnvSource.

(* ===================================================================== *)
(** ** sources.py: SecretsSource *)
(* ===================================================================== *)

Module SecretsSource.

Record t := {
  secrets_dir : option string;
  case_sensitive : bool
}.

(** [SecretsSource.__init__] *)
Definition init (secrets_dir : option string) (case_sensitive : option bool) : t :=
  {| secrets_dir := secrets_dir;
     case_sensitive := match case_sensitive with Some b => b | None => false end |}.

Definition missing_dir_warning (secrets_path : string) : string :=
  String.append "directory "
    (String.append dquote
       (String.append secrets_path (String.append dquote " does not exist"))).

Definition not_a_directory_message (rt : Runtime) (secrets_path : string) : string :=
  String.append "secrets_dir must reference a directory, not a "
    (path_type rt secrets_path).

Definition not_a_file_warning (rt : Runtime) (path : string) : string :=
  String.append "attempted to load secret file "
    (String.append dquote
       (String.append path
          (String.append dquote
             (String.append " but found a "
                (String.append (path_type rt path) " instead."))))).

(** The body of [for env_name in env_names] for one field. *)
Definition call_name (rt : Runtime) (model : Model) (secrets_path : string)
    (field : ModelField) (secrets : dict) (env_name : string) : M dict :=
  let path := path_join secrets_path env_name in
  match fs rt path with
  | Some (RegularFile content) =>
      let secret_value := PyStr.strip content in
      let* secret_value :=
        (if is_complex field then
           match json_loads model secret_value with
           | Some decoded => ret decoded
           | None => raise (SettingsError (json_error_message env_name))
           end
         else ret (VStr secret_value)) in
      ret (PyDict.set (alias field) secret_value secrets)
  | Some (UnreadableFile undecodable) => raise (read_error undecodable)
  | Some _ => warn (not_a_file_warning rt path) ;; ret secrets
  | None => ret secrets
  end.

(** [SecretsSource.__call__] *)
Definition call (self : t) : SettingsSource := fun rt model =>
  let secrets : dict := [] in
  match secrets_dir self with
  | None => ret secrets
  | Some secrets_path =>
      if negb (path_exists rt secrets_path) then
        warn (missing_dir_warning secrets_path) ;; ret secrets
      else if negb (path_is_dir rt secrets_path) then
        raise (SettingsError (not_a_directory_message rt secrets_path))
      else
        let xform := if negb (case_sensitive self) then Some PyStr.lower else None in
        for_each (fields model)
          (fun secrets field =>
             let env_names := _get_source_names field xform in
             for_each env_names (call_name rt model secrets_path field) secrets)
          secrets
  end.

End SecretsSource.

(* ===================================================================== *)
(** ** sources.py: IniFileSource *)
(* ===================================================================== *)

Module IniFileSource.

Record t := {
  ini_file : option string;
  ini_file_encoding : option string;
  ini_default_section : option string;
  case_sensitive : bool
}.

(** [IniFileSource.__init__] *)
Definition init (ini_file ini_file_encoding ini_default_section : option string)
    (case_sensitive : option bool) : t :=
  {| ini_file := ini_file;
     ini_file_encoding := ini_file_encoding;
     ini_default_section := ini_default_section;
     case_sensitive := match case_sensitive with Some b => b | None => false end |}.

(** [parser.default_section] *)
Definition default_section : string := "DEFAULT".

(** [parser.sections()] *)
Definition sections (parser : IniDoc) : list string := map fst (ini_sections parser).

(** [parser.get(section, key, raw=True, fallback=None)]: the option is
    passed through [optionxform] (lower-casing) and looked up in the
    section and then in the defaults; an unknown section other than the
    default one yields the fallback. *)
Definition parser_get (parser : IniDoc) (section key : string) : option string :=
  let option_ := PyStr.lower key in
  match PyDict.get section (ini_sections parser) with
  | Some sectiondict =>
      match PyDict.get option_ sectiondict with
      | Some v => Some v
      | None => PyDict.get option_ (ini_defaults parser)
      end
  | None =>
      if String.eqb section default_section
      then PyDict.get option_ (ini_defaults parser)
      else None
  end.

Definition missing_file_message (ini_file : string) : string :=
  String.append "ini_file "
    (String.append dquote
       (String.append ini_file (String.append dquote " does not exist"))).

Definition not_a_file_message (ini_file : string) : string :=
  String.append "ini_file "
    (String.append dquote
       (String.append ini_file (String.append dquote " is not a file"))).

Definition missing_section_message (section : string) : string :=
  String.append "ini_default_section "
    (String.append dquote
       (String.append section (String.append dquote " does not exist"))).

(** The body of [for field in model.__fields__.values()]. *)
Definition call_field (self : t) (parser : IniDoc) (ini_default_section : string)
    (result : dict) (field : ModelField) : dict :=
  let section :=
    match extra_ini_section field with Some s => s | None => ini_default_section end in
  let key :=
    match extra_ini field with Some k => k | None => name field end in
  let section := if negb (case_sensitive self) then PyStr.lower section else section in
  let key := if negb (case_sensitive self) then PyStr.lower key else key in
  match parser_get parser section key with
  | Some value => if PyStr.truthy value
                  then PyDict.set (alias field) (VStr value) result
                  else result
  | None => result
  end.

(** [IniFileSource.__call__] *)
Definition call (self : t) : SettingsSource := fun rt model =>
  match ini_file self with
  | None => ret []
  | Some ini_file =>
      if negb (path_exists rt ini_file) then
        raise (SettingsError (missing_file_message ini_file))
      else if negb (path_is_file rt ini_file) then
        raise (SettingsError (not_a_file_message ini_file))
      else
        let* parser := lift (configparser_read rt ini_file) in
        let* ini_default_section :=
          (match ini_default_section self with
           | None => ret default_section
           | Some s =>
               if negb (existsb (String.eqb s) (sections parser))
               then raise (SettingsError (missing_section_message s))
               else ret s
           end) in
        ret (fold_left (call_field self parser ini_default_section) (fields model) [])
  end.

End IniFileSource.

(* ===================================================================== *)
(** ** registry.py *)
(* ===================================================================== *)

Module Registry.

(** A [SourceFactory]: the parameter names of its signature and the call
    with keyword arguments. *)
Record Factory := {
  parameters : list string;
  construct : dict -> result SettingsSource
}.

(** [functools.partial(factory, **options)]: keywords given at the call
    override the bound ones; the signature keeps the parameter names. *)
Definition partial (factory : Factory) (options : dict) : Factory :=
  {| parameters := parameters factory;
     construct := fun kwargs => construct factory (PyDict.update options kwargs) |}.

Definition kw_str (kwargs : dict) (k : string) : option string :=
  match PyDict.get k kwargs with
  | Some (VStr s) => Some s
  | _ => None
  end.

Definition kw_bool (kwargs : dict) (k : string) : option bool :=
  match PyDict.get k kwargs with
  | Some v => Some (truthy v)
  | None => None
  end.

(** A call with a keyword the signature does not have is a [TypeError]. *)
Definition check_keywords {A} (params : list string) (kwargs : dict) (a : A) : result A :=
  if forallb (fun kv => existsb (String.eqb (fst kv)) params) kwargs
  then Ok a else Raise TypeError.

Definition EnvSource_parameters : list string :=
  ["env_file"; "env_file_encoding"; "env_nested_delimiter"; "env_prefix"; "case_sensitive"].

(** The class [EnvSource] as a factory. *)
Definition EnvSource_factory : Factory :=
  {| parameters := EnvSource_parameters;
     construct := fun kwargs =>
       check_keywords EnvSource_parameters kwargs
         (EnvSource.call
            (EnvSource.init (kw_str kwargs "env_file")
               (kw_str kwargs "env_file_encoding")
               (kw_str kwargs "env_nested_delimiter")
               (kw_str kwargs "env_prefix")
               (kw_bool kwargs "case_sensitive"))) |}.

Definition IniFileSource_parameters : list string :=
  ["ini_file"; "ini_file_encoding"; "ini_default_section"; "case_sensitive"].

Definition IniFileSource_factory : Factory :=
  {| parameters := IniFileSource_parameters;
     construct := fun kwargs =>
       check_keywords IniFileSource_parameters kwargs
         (IniFileSource.call
            (IniFileSource.init (kw_str kwargs "ini_file")
               (kw_str kwargs "ini_file_encoding")
               (kw_str kwargs "ini_default_section")
               (kw_bool kwargs "case_sensitive"))) |}.

Definition SecretsSource_parameters : list string :=
  ["secrets_dir"; "case_sensitive"].

Definition SecretsSource_factory : Factory :=
  {| parameters := SecretsSource_parameters;
     construct := fun kwargs =>
       check_keywords SecretsSource_parameters kwargs
         (SecretsSource.call
            (SecretsSource.init (kw_str kwargs "secrets_dir")
               (kw_bool kwargs "case_sensitive"))) |}.

(** The two module-level tables. *)
Record state := {
  __sources__ : gmap string Factory;
  __registry__ : gmap string (gmap string Factory)
}.

Definition initial_sources : gmap string Factory :=
  <["env" := EnvSource_factory]>
    (<["ini" := IniFileSource_factory]>
       (<["secrets" := SecretsSource_factory]> ∅)).

(** The tables as the module body leaves them. *)
Definition initial : state :=
  {| __sources__ := initial_sources;
     __registry__ := <["default" := initial_sources]> ∅ |}.

(** Operations on the tables: the state survives a raise. *)
Definition RM (A : Type) : Type := state -> state * result A.

Record Source := {
  name : string;
  factory : Factory
}.

(** [__registry__[env][name] = entry] *)
Definition registry_set (env name : string) (entry : Factory) : RM unit := fun st =>
  match __registry__ st !! env with
  | None => (st, Raise (KeyError env))
  | Some table =>
      ({| __sources__ := __sources__ st;
          __registry__ := <[env := <[name := entry]> table]> (__registry__ st) |},
       Ok tt)
  end.

(** [Source.configure(self, env, **options)] *)
Definition Source_configure (self : Source) (env : string) (options : dict) : RM Source :=
  fun st =>
    match registry_set env (name self) (partial (factory self) options) st with
    | (st', Ok _) => (st', Ok self)
    | (st', Raise e) => (st', Raise e)
    end.

Definition already_registered_message (name : string) : string :=
  String.append "Settings source '" (String.append name "' already registered").

Definition not_registered_message (name : string) : string :=
  String.append "Settings source '" (String.append name "' not registered").

(** The loop [for env, options in configuration.items()] of [register]. *)
Fixpoint configure_all (source : Source) (configuration : list (string * dict)) : RM unit :=
  fun st =>
    match configuration with
    | [] => (st, Ok tt)
    | (env, options) :: rest =>
        match Source_configure source env options st with
        | (st', Ok _) => configure_all source rest st'
        | (st', Raise e) => (st', Raise e)
        end
    end.

(** [register(factory, name, configuration)] *)
Definition register (factory : Factory) (name : string)
    (configuration : option (list (string * dict))) : RM Source := fun st =>
  match __sources__ st !! name with
  | Some _ => (st, Raise (ValueError (already_registered_message name)))
  | None =>
      let st1 := {| __sources__ := <[name := factory]> (__sources__ st);
                    __registry__ := __registry__ st |} in
      match registry_set "default" name factory st1 with
      | (st2, Raise e) => (st2, Raise e)
      | (st2, Ok _) =>
          let source := {| name := name; factory := factory |} in
          match configuration with
          | Some (c :: cs) =>
              match configure_all source (c :: cs) st2 with
              | (st3, Ok _) => (st3, Ok source)
              | (st3, Raise e) => (st3, Raise e)
              end
          | _ => (st2, Ok source)
          end
      end
  end.

(** [configure(name, env, **options)] *)
Definition configure (name env : string) (options : dict) : RM Source := fun st =>
  match __sources__ st !! name with
  | None => (st, Raise (ValueError (not_registered_message name)))
  | Some factory =>
      match registry_set env name (partial factory options) st with
      | (st', Ok _) => (st', Ok {| name := name; factory := factory |})
      | (st', Raise e) => (st', Raise e)
      end
  end.

End Registry.

(* ===================================================================== *)
(** ** settings.py: Settings._build_values *)
(* ===================================================================== *)

Module Settings.

(** [Config.server_env]: a callable, a string, or something else. *)
Inductive server_env_t :=
| ServerEnvCallable (f : Runtime -> string)
| ServerEnvStr (s : string)
| ServerEnvOther.

(** [_utils.get_server_env] *)
Definition get_server_env (rt : Runtime) : string :=
  PyStr.lower
    match PyDict.get "SERVER_ENV" (os_environ rt) with
    | Some v => v
    | None => "local"
    end.

(** The class [Config]: [getmembers] is [inspect.getmembers(Config)]. *)
Record Config := {
  sources : list string;
  server_env : server_env_t;
  getmembers : dict
}.

Definition not_found_message (unk : string) : string :=
  String.append "Settings source '"
    (String.append unk "' not found. Did you forget to `register_settings_source`?").

(** [[f(x) for x in l]], stopping at the first raise. *)
Fixpoint map_m {A B} (f : A -> M B) (l : list A) : M (list B) :=
  match l with
  | [] => ret []
  | x :: l' =>
      let* y := f x in
      let* ys := map_m f l' in
      ret (y :: ys)
  end.

(** The active table [{**default_registry, **env_sources}] and the
    lower-cased environment name. *)
Definition active_sources (reg : Registry.state) (cfg : Config) (rt : Runtime)
    : string * gmap string Registry.Factory :=
  let default_registry := default ∅ (Registry.__registry__ reg !! "default") in
  let server_env :=
    match server_env cfg with
    | ServerEnvCallable f => PyStr.lower (f rt)
    | ServerEnvStr s => PyStr.lower s
    | ServerEnvOther => "default"
    end in
  let env_sources := default ∅ (Registry.__registry__ reg !! server_env) in
  (server_env, env_sources ∪ default_registry).

(** The option bag offered to every factory. *)
Definition build_options (cfg : Config) (server_env : string) : dict :=
  let exclude (name : string) := PyStr.startswith name "_" in
  let options := filter (fun nv => negb (exclude (fst nv))) (getmembers cfg) in
  PyDict.set "server_env" (VStr server_env) options.

(** One turn of [for s in self.__config__.sources]: bind the options the
    signature names and call the factory. *)
Definition instantiate (sources : gmap string Registry.Factory) (options : dict)
    (s : string) : M SettingsSource :=
  match sources !! s with
  | None => raise (KeyError s)
  | Some factory =>
      let bound :=
        filter (fun nv => existsb (String.eqb (fst nv)) (Registry.parameters factory))
               options in
      lift (Registry.construct factory bound)
  end.

(** [config_sources] *)
Definition build_sources (reg : Registry.state) (cfg : Config) (rt : Runtime)
    (values : dict) : M (list SettingsSource) :=
  let '(server_env, sources_) := active_sources reg cfg rt in
  let unk := List.find (fun x => negb (bool_decide (is_Some (sources_ !! x)))) (sources cfg) in
  match unk with
  | Some (String c u) => raise (ValueError (not_found_message (String c u)))
  | _ =>
      let options := build_options cfg server_env in
      let* configured := map_m (instantiate sources_ options) (sources cfg) in
      ret (InitSource.call values :: configured)
  end.

(** [deep_update] applied to the star-expanded [reversed(mappings)]. *)
Definition merge_reversed (mappings : list dict) : M dict :=
  match rev mappings with
  | mapping :: updating_mappings => ret (deep_update mapping updating_mappings)
  | [] => raise TypeError
  end.

(** [[source(self) for source in config_sources]] *)
Definition collect_mappings (reg : Registry.state) (cfg : Config) (rt : Runtime)
    (model : Model) (values : dict) : M (list dict) :=
  let* config_sources := build_sources reg cfg rt values in
  map_m (fun source => source rt model) config_sources.

(** [Settings._build_values] *)
Definition _build_values (reg : Registry.state) (cfg : Config) (rt : Runtime)
    (model : Model) (values : dict) : M dict :=
  let* mappings := collect_mappings reg cfg rt model values in
  merge_reversed mappings.

(** [SettingsMeta.__call__]: [__instances__] is the cache of the class,
    keyed by the class; [construct] is [super().__call__], the
    construction and validation of a fresh instance. *)
Definition SettingsMeta_call {Inst : Type} (cls : string) (__singleton__ : bool)
    (__instances__ : gmap string Inst) (construct : dict -> result Inst)
    (kwargs : dict) : gmap string Inst * result Inst :=
  if negb __singleton__ then (__instances__, construct kwargs)
  else
    match __instances__ !! cls with
    | Some instance => (__instances__, Ok instance)
    | None =>
        match construct kwargs with
        | Ok instance => (<[cls := instance]> __instances__, Ok instance)
        | Raise e => (__instances__, Raise e)
        end
    end.

End Settings.

(* ===================================================================== *)
(** ** validators.py: DelimitedList *)
(* ===================================================================== *)

Module DelimitedList.

Record t := {
  _delimiter : string;
  _list : list string
}.

(** [DelimitedList.__init__(value=[], *, delimiter=",")] *)
Definition init (value : option (list string)) (delimiter : option string) : t :=
  {| _delimiter := match delimiter with Some d => d | None => "," end;
     _list := match value with Some l => l | None => [] end |}.

(** [counts[c] += 1] on an insertion-ordered table of counts. *)
Fixpoint incr (c : ascii) (counts : list (ascii * nat)) : list (ascii * nat) :=
  match counts with
  | [] => [(c, 1)]
  | (c', n) :: r => if decide (c = c') then (c', S n) :: r else (c', n) :: incr c r
  end.

(** [Counter(v)]: characters in order of first occurrence with counts. *)
Definition Counter (v : string) : list (ascii * nat) :=
  fold_left (fun counts c => incr c counts) (list_ascii_of_string v) [].

(** Insertion into a list sorted by decreasing count, before the
    elements that do not have a greater count. *)
Fixpoint insert_desc (x : ascii * nat) (l : list (ascii * nat)) : list (ascii * nat) :=
  match l with
  | [] => [x]
  | y :: l' => if (snd x <? snd y)%nat then y :: insert_desc x l' else x :: l
  end.

(** [Counter.most_common()]: [sorted(items, key=count, reverse=True)],
    a stable sort. *)
Definition most_common (items : list (ascii * nat)) : list (ascii * nat) :=
  fold_right insert_desc [] items.

Definition newline : ascii := ascii_of_nat 10.

(** [order = [",", "\n", ";", "&"]] *)
Definition order : list ascii := ["," ; newline; ";"; "&"]%char.

(** [next((k for k, _ in Counter(v).most_common() if k in order), ",")] *)
Definition separator (v : string) : string :=
  match List.find (fun kn => existsb (Ascii.eqb (fst kn)) order) (most_common (Counter v)) with
  | Some (k, _) => String k EmptyString
  | None => ","
  end.

(** [DelimitedList.validate] on a string. *)
Definition validate (v : string) : result t :=
  let separator := separator v in
  if negb (PyStr.truthy v) then Ok (init None None)
  else
    match PyStr.split v separator with
    | Some parts => Ok (init (Some (map PyStr.strip parts)) (Some separator))
    | None => Raise (ValueError "empty separator")
    end.

(** [DelimitedList.__str__] *)
Definition to_str (self : t) : string := PyStr.join (_delimiter self) (_list self).

(** The position a list index denotes in a list of length [n]: negative
    indices count from the end; [None] stands for [IndexError]. *)
Definition norm_index (n : nat) (index : Z) : option nat :=
  if (0 <=? index)%Z then
    if (index <? Z.of_nat n)%Z then Some (Z.to_nat index) else None
  else
    if (- Z.of_nat n <=? index)%Z then Some (Z.to_nat (Z.of_nat n + index)) else None.

(** [DelimitedList.__len__] *)
Definition len (self : t) : nat := length (_list self).

(** [DelimitedList.__getitem__] on an integer index. *)
Definition getitem (self : t) (index : Z) : result string :=
  match norm_index (length (_list self)) index with
  | Some i =>
      match _list self !! i with
      | Some x => Ok x
      | None => Raise IndexError
      end
  | None => Raise IndexError
  end.

(** [DelimitedList.__setitem__] on an integer index. *)
Definition setitem (self : t) (index : Z) (item : string) : result t :=
  match norm_index (length (_list self)) index with
  | Some i => Ok {| _delimiter := _delimiter self; _list := <[i := item]> (_list self) |}
  | None => Raise IndexError
  end.

(** [DelimitedList.__delitem__] on an integer index. *)
Definition delitem (self : t) (index : Z) : result t :=
  match norm_index (length (_list self)) index with
  | Some i => Ok {| _delimiter := _delimiter self; _list := delete i (_list self) |}
  | None => Raise IndexError
  end.

(** The position [list.insert] puts the new element at: the index is
    counted from the end when negative and clamped to the list. *)
Definition insert_position (n : nat) (index : Z) : nat :=
  if (index <? 0)%Z then Z.to_nat (Z.max 0 (Z.of_nat n + index))
  else Nat.min (Z.to_nat index) n.

(** [DelimitedList.insert] *)
Definition insert (self : t) (index : Z) (value : string) : t :=
  let i := insert_position (length (_list self)) index in
  {| _delimiter := _delimiter self;
     _list := take i (_list self) ++ value :: drop i (_list self) |}.

End DelimitedList.

(* ===================================================================== *)
(** ** Vocabulary of the statements *)
(* ===================================================================== *)

(** What ends up stored under a key that held [lower] (if anything) once
    [higher] is written over it by [deep_update]. *)
Definition merge_value (lower : option value) (higher : value) : value :=
  match lower, higher with
  | Some (VDict lo), VDict hi => VDict (deep_update1 lo hi)
  | _, _ => higher
  end.






(** The section and the key [IniFileSource] looks a field up under. *)
Definition ini_section_of (self : IniFileSource.t) (ini_default_section : string)
    (field : ModelField) : string :=
  let section := match extra_ini_section field with
                 | Some s => s | None => ini_default_section end in
  if negb (IniFileSource.case_sensitive self) then PyStr.lower section else section.

Definition ini_key_of (self : IniFileSource.t) (field : ModelField) : string :=
  let key := match extra_ini field with Some k => k | None => name field end in
  if negb (IniFileSource.case_sensitive self) then PyStr.lower key else key.

(** Occurrences of a character in a string. *)
Definition occurrences (c : ascii) (v : string) : nat :=
  count_occ ascii_dec (list_ascii_of_string v) c.

(** The value the mappings [post] give to [k] once merged among
    themselves in reverse order; [None] when there is none. *)
Definition lower_value (post : list dict) (k : string) : option value :=
  match rev post with
  | mapping :: updating_mappings => PyDict.get k (deep_update mapping updating_mappings)
  | [] => None
  end.

(** The order [most_common] sorts by: counts decrease. *)
Definition by_count_desc (x y : ascii * nat) : Prop := snd y <= snd x.

(** [Counter] over the list of characters of a string. *)
Definition counter_of (l : list ascii) : list (ascii * nat) :=
  fold_left (fun counts c => DelimitedList.incr c counts) l [].

(** A character is one of the candidate delimiters. *)
Definition is_candidate (kn : ascii * nat) : bool :=
  existsb (Ascii.eqb (fst kn)) DelimitedList.order.

(** The candidate names [EnvSource.__call__] probes for a field: the
    field's names, case-folded unless the source is case sensitive, with
    the prefix of the source. *)
Definition env_candidates (self : EnvSource.t) (field : ModelField) : list string :=
  let env_names :=
    _get_source_names field
      (Some (if negb (EnvSource.case_sensitive self) then PyStr.lower else fun x => x)) in
  match EnvSource.env_prefix self with
  | Some p => if PyStr.truthy p then map (String.append p) env_names else env_names
  | None => env_names
  end.

(** No variable of the mapping holds a string under one of the names. *)
Definition all_absent (env_vars : EnvSource.env_map) (names : list string) : bool :=
  forallb (fun n => match PyDict.get n env_vars with
                    | Some (Some _) => false
                    | _ => true
                    end) names.

(** No variable name starts with one of the names followed by the
    delimiter. *)
Definition no_prefixed_variable (env_vars : EnvSource.env_map) (names : list string)
    (delimiter : option string) : bool :=
  forallb (fun kv =>
             negb (existsb (PyStr.startswith (fst kv))
                     (map (fun n => String.append n
                                      match delimiter with
                                      | Some s => s
                                      | None => EmptyString
                                      end) names)))
          env_vars.

(** The value reached by walking [keys] through nested dictionaries and
    then looking [last_key] up. *)
Fixpoint get_nested (keys : list string) (last_key : string) (d : dict) : option value :=
  match keys with
  | [] => PyDict.get last_key d
  | key :: keys' =>
      match PyDict.get key d with
      | Some (VDict sub) => get_nested keys' last_key sub
      | _ => None
      end
  end.



(** The mapping the source configured under the name [s] returns: the
    factory of the active table is bound to the options it names, called,
    and the source applied to the model. *)
Definition source_mapping (reg : Registry.state) (cfg : Settings.Config)
    (rt : Runtime) (model : Model) (s : string) (m : dict) : Prop :=
  outcome
    (let* source :=
       Settings.instantiate (snd (Settings.active_sources reg cfg rt))
         (Settings.build_options cfg (fst (Settings.active_sources reg cfg rt))) s in
     source rt model) = Ok m.




(** The registry states the module can reach from the tables it starts
    with, through [register], [configure] and [Source.configure]; a call
    that raises keeps the changes it made before. *)
Inductive reachable : Registry.state -> Prop :=
| reachable_initial : reachable Registry.initial
| reachable_register (factory : Registry.Factory) (name : string)
    (configuration : option (list (string * dict))) (st : Registry.state) :
    reachable st ->
    reachable (fst (Registry.register factory name configuration st))
| reachable_configure (name env : string) (options : dict) (st : Registry.state) :
    reachable st ->
    reachable (fst (Registry.configure name env options st))
| reachable_Source_configure (self : Registry.Source) (env : string) (options : dict)
    (st : Registry.state) :
    reachable st ->
    reachable (fst (Registry.Source_configure self env options st)).

(** [__registry__] holds the table of [default] and no other. *)
Definition only_default (st : Registry.state) : Prop :=
  forall env : string, is_Some (Registry.__registry__ st !! env) <-> env = "default".

(* ===================================================================== *)
(** ** Sample schemas and processes used by the examples *)
(* ===================================================================== *)

Module Samples.

(** A scalar field with no overrides. *)
Definition scalar_field (n : string) : ModelField :=
  {| name := n; alias := n; is_complex := false; is_union := false;
     sub_fields_complex := []; extra_env := None; extra_matchfull := None;
     extra_ini_section := None; extra_ini := None |}.

(** A field whose type is structured. *)
Definition complex_field (n : string) : ModelField :=
  {| name := n; alias := n; is_complex := true; is_union := false;
     sub_fields_complex := []; extra_env := None; extra_matchfull := None;
     extra_ini_section := None; extra_ini := None |}.

(** A field of type [Union[str, Dict[str, str]]]. *)
Definition union_field (n : string) : ModelField :=
  {| name := n; alias := n; is_complex := false; is_union := true;
     sub_fields_complex := [false; true]; extra_env := None;
     extra_matchfull := None; extra_ini_section := None; extra_ini := None |}.

(** A scalar field probed under several names. *)
Definition multi_name_field (n : string) (candidates : list string) : ModelField :=
  {| name := n; alias := n; is_complex := false; is_union := false;
     sub_fields_complex := []; extra_env := Some (ManyNames candidates);
     extra_matchfull := None; extra_ini_section := None; extra_ini := None |}.


(** A field read from a given INI section and key. *)
Definition ini_field (n section key : string) : ModelField :=
  {| name := n; alias := n; is_complex := false; is_union := false;
     sub_fields_complex := []; extra_env := None; extra_matchfull := None;
     extra_ini_section := Some section; extra_ini := Some key |}.

(** A decoder that accepts no text. *)
Definition no_json : string -> option value := fun _ => None.

Definition model_of (fs : list ModelField) : Model :=
  {| fields := fs; json_loads := no_json |}.

(** A process with the given environment and files and no optional
    library. *)
Definition process (environ : list (string * string))
    (files : list (string * fs_node)) : Runtime :=
  {| os_environ := environ;
     fs := fun p => PyDict.get p files;
     dotenv_values := None;
     re_fullmatch := fun _ _ => None;
     configparser_read := fun _ => Raise ParsingError |}.






(** A secrets directory holding two files and a process over it. *)
Definition secrets_files : list (string * fs_node) :=
  [("/run/secrets", Directory);
   ("/run/secrets/a", RegularFile "1");
   ("/run/secrets/b", RegularFile "2");
   ("/etc/hostname", RegularFile "box")].

(** A secrets directory whose file [db] does not hold valid JSON and
    whose file [key] cannot be decoded. *)
Definition broken_secrets_files : list (string * fs_node) :=
  [("/run/secrets", Directory);
   ("/run/secrets/db", RegularFile "{broken");
   ("/run/secrets/key", UnreadableFile true)].

(** An INI document [[app] name = / port = 80]. *)
Definition ini_doc : IniDoc :=
  {| ini_defaults := [];
     ini_sections := [("app", [("name", EmptyString); ("port", "80")])] |}.

(** A process whose file [/etc/app.ini] parses to [ini_doc]. *)
Definition ini_process : Runtime :=
  {| os_environ := [];
     fs := fun p => PyDict.get p [("/etc/app.ini", RegularFile "[app]")];
     dotenv_values := None;
     re_fullmatch := fun _ _ => None;
     configparser_read := fun _ => Ok ini_doc |}.

(** The pairs python-dotenv reads from the file [.env]. *)
Definition dotenv_parse (path : string) : list (string * option string) :=
  if String.eqb path ".env" then [("HOST", Some "file"); ("PORT", Some "80")] else [].

(** A process with python-dotenv, the file [.env] and the variable
    [HOST=live]. *)
Definition dotenv_process : Runtime :=
  {| os_environ := [("HOST", "live")];
     fs := fun p => PyDict.get p [(".env", RegularFile "HOST=file PORT=80")];
     dotenv_values := Some dotenv_parse;
     re_fullmatch := fun _ _ => None;
     configparser_read := fun _ => Raise ParsingError |}.

(** An INI document whose only section is [[App]], and a process whose
    file [/etc/caps.ini] parses to it. *)
Definition caps_ini_doc : IniDoc :=
  {| ini_defaults := [("name", "n")];
     ini_sections := [("App", [("port", "80")])] |}.

Definition caps_ini_process : Runtime :=
  {| os_environ := [];
     fs := fun p => PyDict.get p [("/etc/caps.ini", RegularFile "[App]")];
     dotenv_values := None;
     re_fullmatch := fun _ _ => None;
     configparser_read := fun _ => Ok caps_ini_doc |}.

(** A source that returns a fixed mapping, as a factory without
    parameters. *)
Definition constant_factory (m : dict) : Registry.Factory :=
  {| Registry.parameters := [];
     Registry.construct := fun _ => Ok (fun _ _ => ret m) |}.

(** The registry after registering [constant_factory a] as [A] and
    [constant_factory b] as [B]. *)
Definition registry_AB (a b : dict) : Registry.state :=
  fst (Registry.register (constant_factory b) "B" None
         (fst (Registry.register (constant_factory a) "A" None Registry.initial))).

Definition config_AB : Settings.Config :=
  {| Settings.sources := ["A"; "B"];
     Settings.server_env := Settings.ServerEnvStr "local";
     Settings.getmembers := [("case_sensitive", VBool false)] |}.

End Samples.

(* ===================================================================== *)
(** * Properties *)
(* ===================================================================== *)

Section dict_facts.
Context {K V : Type} `{EqDecision K}.
Implicit Types (d : list (K * V)) (k : K) (v : V).

Lemma get_set_eq k v d : PyDict.get k (PyDict.set k v d) = Some v.
Proof.
  induction d as [|[k' v'] d IH]; simpl.
  - destruct (decide (k = k)); congruence.
  - destruct (decide (k = k')) as [->|Hne]; simpl.
    + destruct (decide (k' = k')); congruence.
    + destruct (decide (k = k')); [congruence|exact IH].
Qed.

Lemma get_set_ne k k' v d : k <> k' -> PyDict.get k' (PyDict.set k v d) = PyDict.get k' d.
Proof.
  intros Hne. induction d as [|[k0 v0] d IH]; simpl.
  - destruct (decide (k' = k)); congruence.
  - destruct (decide (k = k0)) as [->|Hk]; simpl.
    + destruct (decide (k' = k0)); congruence.
    + destruct (decide (k' = k0)); [reflexivity|exact IH].
Qed.

Lemma get_set k k' v d :
  PyDict.get k' (PyDict.set k v d) = if decide (k = k') then Some v else PyDict.get k' d.
Proof.
  destruct (decide (k = k')) as [->|Hne]; [apply get_set_eq|by apply get_set_ne].
Qed.

Lemma get_None_notin k d : PyDict.get k d = None <-> ~ In k (map fst d).
Proof.
  induction d as [|[k' v'] d IH]; simpl; [tauto|].
  destruct (decide (k = k')) as [->|Hne].
  - split; [discriminate|]. intros Hn. exfalso. apply Hn. by left.
  - rewrite IH. split; intros Hn; [intros [E|Hin]; [congruence|tauto]|tauto].
Qed.

End dict_facts.

(** deep_update equations *)
Lemma deep_update1_nil (m : dict) : deep_update1 m [] = m.
Proof. reflexivity. Qed.

Lemma deep_update1_cons (m : dict) (k : string) (v : value) (rest : dict) :
  deep_update1 m ((k, v) :: rest) =
  deep_update1
    match PyDict.get k m, v with
    | Some (VDict lo), VDict hi => PyDict.set k (VDict (deep_update1 lo hi)) m
    | _, _ => PyDict.set k v m
    end rest.
Proof.
  unfold deep_update1. simpl.
  destruct (PyDict.get k m) as [[]|]; try reflexivity; destruct v; reflexivity.
Qed.

Lemma for_each_cons {A B} (x : A) (l : list A) (body : B -> A -> M B) (acc : B) :
  for_each (x :: l) body acc = bind (body acc x) (fun acc' => for_each l body acc').
Proof. reflexivity. Qed.

Lemma bind_ret_l {A B} (a : A) (f : A -> M B) : bind (ret a) f = f a.
Proof. unfold bind, ret. destruct (f a); reflexivity. Qed.

Lemma bind_raise_l {A B} (e : exn) (f : A -> M B) : bind (raise e) f = raise e.
Proof. reflexivity. Qed.

Lemma append_cons (c : ascii) (s t : string) :
  String.append (String c s) t = String c (String.append s t).
Proof. reflexivity. Qed.


Lemma append_empty_r (s : string) : String.append s EmptyString = s.
Proof.
  induction s as [|c s IH]; [reflexivity|].
  rewrite append_cons. f_equal. exact IH.
Qed.

Lemma map_append_empty (l : list string) :
  map (fun env_name => String.append env_name EmptyString) l = l.
Proof. induction l as [|x l IH]; simpl; [reflexivity|f_equal; [apply append_empty_r|exact IH]]. Qed.

(** With an empty delimiter the loop of [explode_env_vars] passes over the
    variables that match no prefix and fails at the first one that does. *)
Lemma explode_empty_delimiter_loop (env_vars : EnvSource.env_map)
    (env_names : list string) (result : dict) :
  existsb (fun kv => existsb (PyStr.startswith (fst kv)) env_names) env_vars = true ->
  for_each env_vars
    (fun result '(env_name, env_val) =>
       if negb (existsb (PyStr.startswith env_name) env_names) then ret result
       else
         match PyStr.split env_name EmptyString with
         | None => raise (ValueError "empty separator")
         | Some (_ :: x :: rest) =>
             let '(keys, last_key) := EnvSource.init_last x rest in
             lift (EnvSource.set_nested keys last_key (of_opt_str env_val) result)
         | Some _ => raise (ValueError "not enough values to unpack")
         end)
    result
  = ([], Raise (ValueError "empty separator")).
Proof.
  revert result.
  induction env_vars as [|[n v] env_vars IH]; intros result H; [discriminate|].
  rewrite for_each_cons. cbv beta iota.
  cbn [existsb fst] in H.
  destruct (existsb (PyStr.startswith n) env_names) eqn:E; cbn [negb].
  - reflexivity.
  - rewrite bind_ret_l. apply IH. exact H.
Qed.

(** C2 (code defect). With no nested delimiter configured, or with the
    empty one, [explode_env_vars] does not return a sub-mapping: as soon
    as one environment variable has a name that starts with a candidate
    name, the split of that name on the empty separator raises
    [ValueError]. *)
Theorem explode_env_vars_without_delimiter_raises
    (env_vars : EnvSource.env_map) (env_names : list string) :
  existsb (fun kv => existsb (PyStr.startswith (fst kv)) env_names) env_vars = true ->
  EnvSource.explode_env_vars env_vars env_names None
    = ([], Raise (ValueError "empty separator")) /\
  EnvSource.explode_env_vars env_vars env_names (Some EmptyString)
    = ([], Raise (ValueError "empty separator")).
Proof.
  intros H. unfold EnvSource.explode_env_vars.
  rewrite map_append_empty.
  split; by apply explode_empty_delimiter_loop.
Qed.

Lemma explode_env_vars_without_delimiter_raises_at_db_host :
  EnvSource.explode_env_vars [("db_host", Some "localhost")] ["db"] None
    = ([], Raise (ValueError "empty separator")).
Proof.
  apply (explode_env_vars_without_delimiter_raises [("db_host", Some "localhost")] ["db"]).
  reflexivity.
Defined.

(** C4 (code defect). With the candidates [a] and [b] both present as
    regular files holding 1 and 2, the loop over the candidates has no
    [break] and the field receives the content of [b], the last existing
    candidate, not of [a], the first. *)
Theorem secrets_last_existing_candidate_is_kept :
  SecretsSource.call (SecretsSource.init (Some "/run/secrets") None)
    (Samples.process [] Samples.secrets_files)
    (Samples.model_of [Samples.multi_name_field "token" ["a"; "b"]])
  = ([], Ok [("token", VStr "2")]).
Proof. vm_compute. reflexivity. Qed.

(** C6 (code defect). Built without a [case_sensitive] keyword,
    [EnvSource] is case sensitive: it does not lower-case the names, so the
    variable [FOO] is not found for the field [foo]; it is found when
    [case_sensitive=False] is passed. *)
Theorem env_source_default_is_case_sensitive :
  (forall env_file env_file_encoding env_nested_delimiter env_prefix,
      EnvSource.case_sensitive
        (EnvSource.init env_file env_file_encoding env_nested_delimiter env_prefix None)
      = true) /\
  EnvSource.call (EnvSource.init None None None None None)
    (Samples.process [("FOO", "bar")] [])
    (Samples.model_of [Samples.scalar_field "foo"])
  = ([], Ok []) /\
  EnvSource.call (EnvSource.init None None None None (Some false))
    (Samples.process [("FOO", "bar")] [])
    (Samples.model_of [Samples.scalar_field "foo"])
  = ([], Ok [("foo", VStr "bar")]).
Proof. split; [reflexivity|]. split; vm_compute; reflexivity. Qed.

(** Registry *)
Lemma initial_sources_env :
  Registry.initial_sources !! "env" = Some Registry.EnvSource_factory.
Proof. unfold Registry.initial_sources. apply lookup_insert_eq. Qed.

Lemma initial_registry_prod :
  Registry.__registry__ Registry.initial !! "prod" = None.
Proof.
  unfold Registry.initial. simpl.
  rewrite lookup_insert_ne by discriminate. apply lookup_empty.
Qed.

(** C7 (code defect). On the tables as the module leaves them,
    configuring the registered source [env] for the environment [prod]
    raises [KeyError]: the registry has no table for [prod] and
    [configure] does not create one; the tables are left unchanged. *)
Theorem configure_registered_source_for_new_environment_raises (options : dict) :
  Registry.configure "env" "prod" options Registry.initial
  = (Registry.initial, Raise (KeyError "prod")).
Proof.
  unfold Registry.configure.
  change (Registry.__sources__ Registry.initial) with Registry.initial_sources.
  rewrite initial_sources_env.
  unfold Registry.registry_set. rewrite initial_registry_prod. reflexivity.
Qed.

(** What [configure] does where the environment has a table. *)
Lemma configure_spec (name env : string) (options : dict) (st : Registry.state) :
  Registry.configure name env options st =
  match Registry.__sources__ st !! name with
  | None => (st, Raise (ValueError (Registry.not_registered_message name)))
  | Some factory =>
      match Registry.__registry__ st !! env with
      | None => (st, Raise (KeyError env))
      | Some table =>
          ({| Registry.__sources__ := Registry.__sources__ st;
              Registry.__registry__ :=
                <[env := <[name := Registry.partial factory options]> table]>
                  (Registry.__registry__ st) |},
           Ok {| Registry.name := name; Registry.factory := factory |})
      end
  end.
Proof.
  unfold Registry.configure, Registry.registry_set.
  destruct (Registry.__sources__ st !! name); [|reflexivity].
  destruct (Registry.__registry__ st !! env); reflexivity.
Qed.

(** ** SecretsSource: the directory checks *)

Lemma outcome_bind_ok {A B} (m : M A) (f : A -> M B) (b : B) :
  outcome (bind m f) = Ok b -> exists a, outcome m = Ok a /\ outcome (f a) = Ok b.
Proof.
  destruct m as [w [a|e]]; unfold outcome, bind; cbn [snd]; [|discriminate].
  destruct (f a) as [w' r] eqn:E. cbn [snd]. intros ->. exists a. rewrite E. split; reflexivity.
Qed.









(** ** IniFileSource: empty values *)

Lemma ini_call_field_spec (self : IniFileSource.t) (parser : IniDoc)
    (ini_default_section : string) (result : dict) (field : ModelField) :
  IniFileSource.call_field self parser ini_default_section result field =
  match IniFileSource.parser_get parser (ini_section_of self ini_default_section field)
          (ini_key_of self field) with
  | Some value => if PyStr.truthy value
                  then PyDict.set (alias field) (VStr value) result else result
  | None => result
  end.
Proof. reflexivity. Qed.

Lemma ini_fold_absent (self : IniFileSource.t) (parser : IniDoc)
    (ini_default_section : string) (a : string) (fs : list ModelField) (result : dict) :
  (forall g, In g fs -> alias g = a ->
     IniFileSource.parser_get parser (ini_section_of self ini_default_section g)
       (ini_key_of self g) = Some EmptyString) ->
  PyDict.get a (fold_left (IniFileSource.call_field self parser ini_default_section) fs result)
  = PyDict.get a result.
Proof.
  revert result. induction fs as [|g fs IH]; intros result H; [reflexivity|].
  cbn [fold_left]. rewrite IH by (intros; apply H; [by right|done]).
  rewrite ini_call_field_spec.
  destruct (decide (alias g = a)) as [E|E].
  - rewrite (H g (or_introl eq_refl) E). reflexivity.
  - destruct (IniFileSource.parser_get _ _ _) as [value|]; [|reflexivity].
    destruct (PyStr.truthy value); [|reflexivity]. by apply get_set_ne.
Qed.

(** ** deep_update, key by key *)

Lemma deep_update1_step (m : dict) (k : string) (v : value) (rest : dict) :
  deep_update1 m ((k, v) :: rest)
  = deep_update1 (PyDict.set k (merge_value (PyDict.get k m) v) m) rest.
Proof.
  rewrite deep_update1_cons. unfold merge_value.
  destruct (PyDict.get k m) as [[]|]; try reflexivity; destruct v; reflexivity.
Qed.

(** A key the updating mapping lacks keeps its value. *)
Lemma deep_update1_get_absent (k : string) (updating m : dict) :
  PyDict.get k updating = None ->
  PyDict.get k (deep_update1 m updating) = PyDict.get k m.
Proof.
  revert m. induction updating as [|[k' v'] updating IH]; intros m H; [reflexivity|].
  cbn [PyDict.get] in H. destruct (decide (k = k')) as [|Hne]; [discriminate|].
  rewrite deep_update1_step, (IH _ H). apply get_set_ne. congruence.
Qed.

(** A key the updating mapping has receives the merge of the two values. *)
Lemma deep_update1_get_present (k : string) (v : value) (updating m : dict) :
  PyDict.wf updating ->
  PyDict.get k updating = Some v ->
  PyDict.get k (deep_update1 m updating) = Some (merge_value (PyDict.get k m) v).
Proof.
  unfold PyDict.wf. revert m.
  induction updating as [|[k' v'] updating IH]; intros m Hwf H; [discriminate|].
  cbn [map fst] in Hwf. apply NoDup_cons in Hwf as [Hnotin Hwf].
  cbn [PyDict.get] in H. rewrite deep_update1_step.
  destruct (decide (k = k')) as [->|Hne].
  - injection H as ->. rewrite deep_update1_get_absent.
    + apply get_set_eq.
    + apply get_None_notin. intros Hin. apply Hnotin. by apply list_elem_of_In.
  - rewrite (IH _ Hwf H). f_equal. f_equal. apply get_set_ne. congruence.
Qed.

Lemma deep_update_get_absent (k : string) (ups : list dict) (m : dict) :
  Forall (fun p => PyDict.get k p = None) ups ->
  PyDict.get k (deep_update m ups) = PyDict.get k m.
Proof.
  unfold deep_update. revert m.
  induction ups as [|u ups IH]; intros m H; [reflexivity|].
  apply Forall_cons in H as [Hu H]. cbn [fold_left].
  rewrite (IH _ H). by apply deep_update1_get_absent.
Qed.

(** ** IniFileSource *)

(** C10. A field whose section and key are present in the INI file with
    the empty string as value gets no entry in the mapping
    [IniFileSource] returns, so merging that mapping over lower-precedence
    values leaves the value under the field's alias as it was. *)
Theorem ini_empty_value_is_omitted (self : IniFileSource.t) (rt : Runtime)
    (model : Model) (path : string) (parser : IniDoc) (field : ModelField) (m : dict) :
  IniFileSource.ini_file self = Some path ->
  configparser_read rt path = Ok parser ->
  outcome (IniFileSource.call self rt model) = Ok m ->
  In field (fields model) ->
  (forall g, In g (fields model) -> alias g = alias field -> g = field) ->
  IniFileSource.parser_get parser
    (ini_section_of self
       (match IniFileSource.ini_default_section self with
        | Some s => s
        | None => IniFileSource.default_section
        end) field)
    (ini_key_of self field) = Some EmptyString ->
  PyDict.get (alias field) m = None /\
  forall lower : dict,
    PyDict.get (alias field) (deep_update lower [m]) = PyDict.get (alias field) lower.
Proof.
  intros Hfile Hread Hcall Hin Huniq Hempty.
  assert (PyDict.get (alias field) m = None) as Hm.
  { unfold IniFileSource.call in Hcall. rewrite Hfile in Hcall.
    destruct (negb (path_exists rt path)); [discriminate|].
    destruct (negb (path_is_file rt path)); [discriminate|].
    rewrite Hread in Hcall. unfold lift in Hcall.
    change (@pair (list string) (result IniDoc) [] (Ok parser)) with (ret parser) in Hcall.
    rewrite bind_ret_l in Hcall.
    destruct (IniFileSource.ini_default_section self) as [s|].
    - destruct (negb (existsb (String.eqb s) (IniFileSource.sections parser)));
        [discriminate|].
      rewrite bind_ret_l in Hcall. injection Hcall as <-.
      rewrite ini_fold_absent; [reflexivity|].
      intros g Hg Ha. by rewrite (Huniq g Hg Ha).
    - rewrite bind_ret_l in Hcall. injection Hcall as <-.
      rewrite ini_fold_absent; [reflexivity|].
      intros g Hg Ha. by rewrite (Huniq g Hg Ha). }
  split; [exact Hm|].
  intros lower. unfold deep_update. cbn [fold_left].
  by apply deep_update1_get_absent.
Qed.

Lemma ini_empty_value_is_omitted_sample :
  outcome (IniFileSource.call
             (IniFileSource.init (Some "/etc/app.ini") None (Some "app") None)
             Samples.ini_process
             (Samples.model_of [Samples.ini_field "name" "app" "name";
                                Samples.ini_field "port" "app" "port"]))
  = Ok [("port", VStr "80")] /\
  PyDict.get "name" [("port", VStr "80")] = None /\
  PyDict.get "name" (deep_update [("name", VStr "fallback")] [[("port", VStr "80")]])
  = Some (VStr "fallback").
Proof.
  split; [reflexivity|].
  pose proof (ini_empty_value_is_omitted
                (IniFileSource.init (Some "/etc/app.ini") None (Some "app") None)
                Samples.ini_process
                (Samples.model_of [Samples.ini_field "name" "app" "name";
                                   Samples.ini_field "port" "app" "port"])
                "/etc/app.ini" Samples.ini_doc
                (Samples.ini_field "name" "app" "name")
                [("port", VStr "80")]
                eq_refl eq_refl eq_refl) as H.
  destruct H as [H1 H2].
  - simpl. by left.
  - intros g [<-|[<-|[]]]; [reflexivity|discriminate].
  - reflexivity.
  - split; [exact H1|]. exact (H2 [("name", VStr "fallback")]).
Defined.

(** ** EnvSource: a tolerated decoding failure *)

(** C3 (amended). For a field whose type is a union with a structured
    alternative, when the value found under a candidate name fails JSON
    decoding, the failure is tolerated and the raw string itself is
    assigned as the field's value; delimiter-exploded assembly is not
    consulted. *)
Theorem env_union_field_keeps_raw_string_on_json_failure
    (self : EnvSource.t) (model : Model) (env_vars : EnvSource.env_map)
    (field : ModelField) (d : dict) (env_name raw : string) :
  EnvSource.field_is_complex field = (true, true) ->
  EnvSource.first_present env_vars
    (let env_names :=
       _get_source_names field
         (Some (if negb (EnvSource.case_sensitive self) then PyStr.lower else fun x => x)) in
     match EnvSource.env_prefix self with
     | Some p => if PyStr.truthy p then map (String.append p) env_names else env_names
     | None => env_names
     end) EmptyString = (env_name, Some raw) ->
  json_loads model raw = None ->
  EnvSource.call_named self model env_vars field d
  = ret (PyDict.set (alias field) (VStr raw) d).
Proof.
  intros Hcomplex Hfound Hjson. unfold EnvSource.call_named.
  cbv zeta in Hfound. rewrite Hfound, Hcomplex, Hjson. cbn [negb].
  rewrite bind_ret_l. reflexivity.
Qed.

Lemma env_union_field_keeps_raw_string_sample :
  EnvSource.call_named (EnvSource.init None None (Some "__") None (Some true))
    (Samples.model_of [Samples.union_field "db"])
    [("db", Some "plain"); ("db__port", Some "5432")]
    (Samples.union_field "db") []
  = ret [("db", VStr "plain")].
Proof.
  apply (env_union_field_keeps_raw_string_on_json_failure
           (EnvSource.init None None (Some "__") None (Some true))
           (Samples.model_of [Samples.union_field "db"])
           [("db", Some "plain"); ("db__port", Some "5432")]
           (Samples.union_field "db") [] "db" "plain");
    reflexivity.
Defined.

(** C3, as stated, fails: with [db=plain] and [db__port=5432] the union
    field [db] receives the raw string [plain], not the exploded
    sub-mapping, which would be [{port: 5432}]. *)
Lemma env_union_field_raw_string_is_assigned :
  EnvSource.call (EnvSource.init None None (Some "__") None (Some true))
    (Samples.process [("db", "plain"); ("db__port", "5432")] [])
    (Samples.model_of [Samples.union_field "db"])
  = ([], Ok [("db", VStr "plain")]) /\
  EnvSource.explode_env_vars [("db", Some "plain"); ("db__port", Some "5432")]
    ["db"] (Some "__")
  = ([], Ok [("port", VStr "5432")]).
Proof. split; vm_compute; reflexivity. Qed.

(** ** EnvSource: fields collected through [matchfull] *)

Lemma bind_assoc {A B C} (m : M A) (f : A -> M B) (g : B -> M C) :
  bind (bind m f) g = bind m (fun a => bind (f a) g).
Proof.
  destruct m as [w [a|e]]; [|reflexivity]. unfold bind.
  destruct (f a) as [w1 [b|e1]]; [|reflexivity].
  destruct (g b) as [w2 r]. by rewrite app_assoc.
Qed.

Lemma outcome_bind_of_ok {A B} (m : M A) (f : A -> M B) (a : A) :
  outcome m = Ok a -> outcome (bind m f) = outcome (f a).
Proof.
  destruct m as [w [a'|e]]; unfold outcome; cbn [snd]; [|discriminate].
  intros [= ->]. unfold bind. by destruct (f a).
Qed.

Lemma outcome_bind_of_raise {A B} (m : M A) (f : A -> M B) (e : exn) :
  outcome m = Raise e -> outcome (bind m f) = Raise e.
Proof.
  destruct m as [w [a|e']]; unfold outcome; cbn [snd]; [discriminate|].
  by intros [= ->].
Qed.




Section matchfull.
Context (rt : Runtime) (pattern : string) (field : ModelField).





End matchfull.



Section matchfull_outcome.
Context (rt : Runtime) (pattern : string) (field : ModelField).





End matchfull_outcome.

Section env_fields.
Context (self : EnvSource.t) (rt : Runtime) (model : Model)
        (env_vars : EnvSource.env_map).





End env_fields.





(** ** Settings._build_values: precedence of the sources *)

Lemma deep_update_app (m : dict) (ups1 ups2 : list dict) :
  deep_update m (ups1 ++ ups2) = deep_update (deep_update m ups1) ups2.
Proof. apply fold_left_app. Qed.

(** The merged value of a key, seen from the first mapping that has it. *)
Lemma merge_reversed_get (pre post : list dict) (m merged : dict) (k : string) (v : value) :
  Settings.merge_reversed (pre ++ m :: post) = ret merged ->
  Forall (fun p => PyDict.get k p = None) pre ->
  PyDict.wf m ->
  PyDict.get k m = Some v ->
  PyDict.get k merged = Some (merge_value (lower_value post k) v).
Proof.
  unfold Settings.merge_reversed, lower_value.
  rewrite rev_app_distr. cbn [rev]. rewrite <- app_assoc. cbn [app].
  intros Hm Hpre Hwf Hk.
  assert (Forall (fun p => PyDict.get k p = None) (rev pre)) as Hrev.
  { apply Forall_forall. intros p Hp. rewrite Forall_forall in Hpre.
    apply Hpre. apply list_elem_of_In. apply in_rev. by apply list_elem_of_In. }
  destruct (rev post) as [|m0 ups].
  - cbn [app] in Hm. injection Hm as <-.
    rewrite (deep_update_get_absent _ _ _ Hrev). by rewrite Hk.
  - cbn [app] in Hm. injection Hm as <-.
    rewrite deep_update_app.
    change (deep_update (deep_update m0 ups) (m :: rev pre))
      with (deep_update (deep_update1 (deep_update m0 ups) m) (rev pre)).
    rewrite (deep_update_get_absent _ _ _ Hrev).
    by apply deep_update1_get_present.
Qed.

Lemma merge_value_scalar (lower : option value) (v : value) :
  is_dict v = false -> merge_value lower v = v.
Proof. destruct lower as [[]|], v; try reflexivity; discriminate. Qed.

(** [map_m] returns exactly when every call does, in the order of the list. *)
Lemma map_m_ok {A B} (f : A -> M B) (l : list A) (ys : list B) :
  outcome (Settings.map_m f l) = Ok ys <-> Forall2 (fun x y => outcome (f x) = Ok y) l ys.
Proof.
  revert ys. induction l as [|x l IH]; intros ys; cbn [Settings.map_m].
  - split.
    + intros [= <-]. constructor.
    + intros H. by inversion H.
  - split.
    + intros H. apply outcome_bind_ok in H as (y & Hy & H).
      apply outcome_bind_ok in H as (ys' & Hys & [= <-]).
      constructor; [exact Hy|]. by apply IH.
    + intros H. inversion H as [|? y ? ys' Hy Hys]; subst.
      rewrite (outcome_bind_of_ok _ _ _ Hy).
      apply IH in Hys. by rewrite (outcome_bind_of_ok _ _ _ Hys).
Qed.

(** Instantiating the sources and then calling them, name by name. *)
Lemma map_m_compose {A B C} (f : A -> M B) (g : B -> M C) (l : list A) (zs : list C) :
  (exists ys, outcome (Settings.map_m f l) = Ok ys /\ outcome (Settings.map_m g ys) = Ok zs)
  <-> Forall2 (fun x z => outcome (let* y := f x in g y) = Ok z) l zs.
Proof.
  revert zs. induction l as [|x l IH]; intros zs.
  - split.
    + intros (ys & [= <-] & [= <-]). constructor.
    + intros H. inversion H. by exists [].
  - split.
    + intros (ys & Hys & Hzs). apply map_m_ok in Hys.
      inversion Hys as [|? y ? ys' Hy Hys']; subst.
      apply map_m_ok in Hzs. inversion Hzs as [|? z ? zs' Hz Hzs']; subst.
      constructor.
      * by rewrite (outcome_bind_of_ok _ _ _ Hy).
      * apply IH. exists ys'. split; by apply map_m_ok.
    + intros H. inversion H as [|? z ? zs' Hz Hzs']; subst.
      apply outcome_bind_ok in Hz as (y & Hy & Hz).
      apply IH in Hzs' as (ys & Hys & Hzs).
      exists (y :: ys). split; apply map_m_ok; constructor; try assumption;
        by apply map_m_ok.
Qed.

(** A name whose source returns a mapping is in the active table. *)
Lemma source_mapping_known (reg : Registry.state) (cfg : Settings.Config)
    (rt : Runtime) (model : Model) (s : string) (m : dict) :
  source_mapping reg cfg rt model s m ->
  is_Some (snd (Settings.active_sources reg cfg rt) !! s).
Proof.
  unfold source_mapping, Settings.instantiate.
  destruct (snd (Settings.active_sources reg cfg rt) !! s); [by eexists|discriminate].
Qed.

(** [build_sources] once every configured name is known. *)
Lemma build_sources_known (reg : Registry.state) (cfg : Settings.Config)
    (rt : Runtime) (values : dict) :
  Forall (fun s => is_Some (snd (Settings.active_sources reg cfg rt) !! s))
         (Settings.sources cfg) ->
  Settings.build_sources reg cfg rt values
  = let* configured :=
      Settings.map_m
        (Settings.instantiate (snd (Settings.active_sources reg cfg rt))
           (Settings.build_options cfg (fst (Settings.active_sources reg cfg rt))))
        (Settings.sources cfg) in
    ret (InitSource.call values :: configured).
Proof.
  intros Hknown. unfold Settings.build_sources.
  destruct (Settings.active_sources reg cfg rt) as [server_env sources_].
  cbn [fst snd] in *.
  destruct (find _ _) as [[|c u]|] eqn:E; [reflexivity| |reflexivity].
  apply find_some in E as [Hin E]. rewrite Forall_forall in Hknown.
  apply list_elem_of_In, Hknown in Hin.
  by rewrite bool_decide_eq_true_2 in E.
Qed.

(** The call of [InitSource] in front of the configured sources. *)
Lemma collect_mappings_known (reg : Registry.state) (cfg : Settings.Config)
    (rt : Runtime) (model : Model) (values : dict) (ms : list dict) :
  Forall2 (source_mapping reg cfg rt model) (Settings.sources cfg) ms ->
  outcome (Settings.collect_mappings reg cfg rt model values) = Ok (values :: ms).
Proof.
  intros Hms. unfold Settings.collect_mappings.
  rewrite build_sources_known.
  - apply map_m_compose in Hms as (configured & Hconf & Hcall).
    rewrite bind_assoc. rewrite (outcome_bind_of_ok _ _ _ Hconf).
    rewrite bind_ret_l. cbn [Settings.map_m]. unfold InitSource.call at 1.
    rewrite bind_ret_l. by rewrite (outcome_bind_of_ok _ _ _ Hcall).
  - clear -Hms. induction Hms as [|s m names ms' H Hms IH]; constructor; [|exact IH].
    by apply source_mapping_known in H.
Qed.

(** Conversely, the mappings collected are [values] followed by the mapping
    of each configured name, in the order of [Config.sources]. *)
Lemma collect_mappings_inv (reg : Registry.state) (cfg : Settings.Config)
    (rt : Runtime) (model : Model) (values : dict) (mappings : list dict) :
  outcome (Settings.collect_mappings reg cfg rt model values) = Ok mappings ->
  exists ms,
    mappings = values :: ms /\
    Forall2 (source_mapping reg cfg rt model) (Settings.sources cfg) ms.
Proof.
  unfold Settings.collect_mappings. intros H.
  apply outcome_bind_ok in H as (srcs & Hsrcs & Hmap).
  assert (exists configured,
             outcome (Settings.map_m
               (Settings.instantiate (snd (Settings.active_sources reg cfg rt))
                  (Settings.build_options cfg (fst (Settings.active_sources reg cfg rt))))
               (Settings.sources cfg)) = Ok configured /\
             srcs = InitSource.call values :: configured) as (configured & Hconf & ->).
  { unfold Settings.build_sources in Hsrcs.
    destruct (Settings.active_sources reg cfg rt) as [server_env sources_].
    cbn [fst snd].
    destruct (find _ _) as [[|c u]|]; [|discriminate|];
      apply outcome_bind_ok in Hsrcs as (configured & Hconf & [= <-]);
      by exists configured. }
  cbn [Settings.map_m] in Hmap. unfold InitSource.call at 1 in Hmap.
  rewrite bind_ret_l in Hmap.
  apply outcome_bind_ok in Hmap as (ms & Hms & [= <-]).
  exists ms. split; [reflexivity|].
  apply map_m_compose. by exists configured.
Qed.

(** C1 (amended). When the source configured under each name of
    [Config.sources] returns a mapping, [_build_values] collects the
    caller's values followed by those mappings, in the order of the
    names, and returns their deep merge in reverse of that order.  For a
    key, the first of them that has it, the caller's values or the mapping
    of the earliest such name, supplies the merged value, except that when
    its value and the value merged from the later mappings are both
    mappings the two are deep-merged; in particular a value that is not a
    mapping always wins. *)
Theorem build_values_merges_in_reverse_order
    (reg : Registry.state) (cfg : Settings.Config) (rt : Runtime) (model : Model)
    (values : dict) (ms : list dict) :
  Forall2 (source_mapping reg cfg rt model) (Settings.sources cfg) ms ->
  Forall PyDict.wf (values :: ms) ->
  exists merged,
    outcome (Settings.collect_mappings reg cfg rt model values) = Ok (values :: ms) /\
    outcome (Settings._build_values reg cfg rt model values) = Ok merged /\
    Settings.merge_reversed (values :: ms) = ret merged /\
    (forall (k : string) (v : value),
       PyDict.get k values = Some v ->
       PyDict.get k merged = Some (merge_value (lower_value ms k) v) /\
       (is_dict v = false -> PyDict.get k merged = Some v)) /\
    (forall (i : nat) (s : string) (m : dict) (k : string) (v : value),
       Settings.sources cfg !! i = Some s ->
       ms !! i = Some m ->
       PyDict.get k values = None ->
       (forall (j : nat) (m' : dict),
          j < i -> ms !! j = Some m' -> PyDict.get k m' = None) ->
       PyDict.get k m = Some v ->
       source_mapping reg cfg rt model s m /\
       PyDict.get k merged = Some (merge_value (lower_value (drop (S i) ms) k) v) /\
       (is_dict v = false -> PyDict.get k merged = Some v)).
Proof.
  intros Hms Hwf.
  pose proof (collect_mappings_known reg cfg rt model values ms Hms) as Hcollect.
  assert (exists merged, Settings.merge_reversed (values :: ms) = ret merged)
    as [merged Hmerged].
  { unfold Settings.merge_reversed. cbn [rev].
    destruct (rev ms ++ [values]) as [|m0 ups] eqn:E.
    - by apply app_eq_nil in E as [_ ?].
    - by eexists. }
  exists merged. split; [exact Hcollect|]. split; [|split; [exact Hmerged|split]].
  - unfold Settings._build_values.
    rewrite (outcome_bind_of_ok _ _ _ Hcollect). by rewrite Hmerged.
  - intros k v Hk.
    assert (PyDict.get k merged = Some (merge_value (lower_value ms k) v)) as Hget.
    { apply (merge_reversed_get [] ms values merged k v Hmerged); [constructor| |exact Hk].
      by apply Forall_cons in Hwf as [? _]. }
    split; [exact Hget|]. intros Hscalar. by rewrite Hget, merge_value_scalar.
  - intros i s m k v Hs Hm Hinit Hbefore Hk.
    split.
    { revert Hs Hm. clear -Hms. revert i.
      induction Hms as [|s' m' names ms' H Hms IH]; intros [|i]; cbn; try discriminate.
      - by intros [= <-] [= <-].
      - apply IH. }
    assert (PyDict.get k merged
            = Some (merge_value (lower_value (drop (S i) ms) k) v)) as Hget.
    { apply (merge_reversed_get (values :: take i ms) (drop (S i) ms) m merged k v).
      - cbn [app]. by rewrite (take_drop_middle ms i m Hm).
      - constructor; [exact Hinit|].
        apply Forall_lookup. intros j m' Hj.
        apply lookup_take_Some in Hj as [Hj Hlt]. exact (Hbefore j m' Hlt Hj).
      - apply Forall_cons in Hwf as [_ Hwf].
        rewrite Forall_lookup in Hwf. exact (Hwf i m Hm).
      - exact Hk. }
    split; [exact Hget|]. intros Hscalar. by rewrite Hget, merge_value_scalar.
Qed.

Lemma build_values_merges_in_reverse_order_sample :
  exists merged,
    outcome (Settings._build_values
               (Samples.registry_AB [("x", VInt 1)] [("x", VInt 2)])
               Samples.config_AB (Samples.process [] []) (Samples.model_of []) [])
    = Ok merged /\
    PyDict.get "x" merged = Some (VInt 1).
Proof.
  destruct (build_values_merges_in_reverse_order
              (Samples.registry_AB [("x", VInt 1)] [("x", VInt 2)])
              Samples.config_AB (Samples.process [] []) (Samples.model_of []) []
              [[("x", VInt 1)]; [("x", VInt 2)]])
    as (merged & _ & Hout & _ & _ & Hprec).
  - repeat constructor; vm_compute; reflexivity.
  - apply (bool_decide_unpack _). vm_compute. exact I.
  - exists merged. split; [exact Hout|].
    apply (Hprec 0 "A" [("x", VInt 1)] "x" (VInt 1));
      [reflexivity|reflexivity|reflexivity|lia|reflexivity|reflexivity].
Defined.

(** C1, as stated, fails for mapping values: with [A] giving
    [x = {a: 1}] and [B] giving [x = {b: 2}] the merged value of [x] is
    [{b: 2, a: 1}], not the value [A] supplies. *)
Lemma build_values_merges_mappings_of_both_sources :
  outcome (Settings._build_values
             (Samples.registry_AB [("x", VDict [("a", VInt 1)])]
                                  [("x", VDict [("b", VInt 2)])])
             Samples.config_AB (Samples.process [] []) (Samples.model_of []) [])
  = Ok [("x", VDict [("b", VInt 2); ("a", VInt 1)])] /\
  outcome (Settings.collect_mappings
             (Samples.registry_AB [("x", VDict [("a", VInt 1)])]
                                  [("x", VDict [("b", VInt 2)])])
             Samples.config_AB (Samples.process [] []) (Samples.model_of []) [])
  = Ok [[]; [("x", VDict [("a", VInt 1)])]; [("x", VDict [("b", VInt 2)])]] /\
  VDict [("b", VInt 2); ("a", VInt 1)] <> VDict [("a", VInt 1)].
Proof. split; [|split]; [vm_compute; reflexivity..|discriminate]. Qed.

(** ** Splitting and joining *)

Lemma append_assoc (s t u : string) :
  String.append (String.append s t) u = String.append s (String.append t u).
Proof.
  induction s as [|c s IH]; [reflexivity|].
  rewrite !append_cons. f_equal. exact IH.
Qed.





Lemma join_cons (sep x : string) (l : list string) :
  l <> [] ->
  PyStr.join sep (x :: l) = String.append x (String.append sep (PyStr.join sep l)).
Proof. destruct l; [congruence|reflexivity]. Qed.




(** ** most_common: a stable sort by decreasing count *)

Section most_common.
Implicit Types (x y e : ascii * nat) (l items : list (ascii * nat)).

Lemma insert_desc_In x l e :
  In e (DelimitedList.insert_desc x l) <-> e = x \/ In e l.
Proof.
  induction l as [|y l IH]; cbn [DelimitedList.insert_desc].
  - cbn. intuition.
  - destruct (snd x <? snd y)%nat; cbn [In]; [rewrite IH|]; intuition.
Qed.



Lemma most_common_In items e :
  In e (DelimitedList.most_common items) <-> In e items.
Proof.
  induction items as [|x items IH]; [reflexivity|].
  cbn [DelimitedList.most_common fold_right In].
  rewrite insert_desc_In. unfold DelimitedList.most_common in IH. rewrite IH.
  intuition.
Qed.

Context (P : ascii * nat -> bool).

Lemma find_sorted_max l y :
  StronglySorted by_count_desc l ->
  find P l = Some y -> forall e, In e l -> P e = true -> snd e <= snd y.
Proof.
  induction 1 as [|z l Hs IH Hz]; [discriminate|].
  cbn [find]. destruct (P z) eqn:Pz.
  - intros [= <-] e [<-|He] _; [lia|].
    rewrite Forall_forall in Hz. apply Hz. by apply list_elem_of_In.
  - intros Hf e [<-|He] Pe; [congruence|]. by apply IH.
Qed.


End most_common.

(** ** Counter: counts in order of first occurrence *)

Lemma Counter_counter_of (v : string) :
  DelimitedList.Counter v = counter_of (list_ascii_of_string v).
Proof. reflexivity. Qed.












(** ** DelimitedList *)

Lemma separator_unfold (v : string) :
  DelimitedList.separator v =
  match find is_candidate (DelimitedList.most_common (counter_of (list_ascii_of_string v))) with
  | Some (k, _) => String k EmptyString
  | None => ","
  end.
Proof. reflexivity. Qed.







Lemma delimited_list_examples :
  DelimitedList.validate "a,b,c"
    = Ok {| DelimitedList._delimiter := ","; DelimitedList._list := ["a"; "b"; "c"] |} /\
  option_map DelimitedList.to_str
    (match DelimitedList.validate "a,b,c" with Ok p => Some p | Raise _ => None end)
    = Some "a,b,c" /\
  DelimitedList.validate "a;b;c"
    = Ok {| DelimitedList._delimiter := ";"; DelimitedList._list := ["a"; "b"; "c"] |}.
Proof. repeat split; vm_compute; reflexivity. Qed.


(** ** registry.py: registration and configuration *)

Lemma registry_set_spec (env name : string) (entry : Registry.Factory)
    (st : Registry.state) (table : gmap string Registry.Factory) :
  Registry.__registry__ st !! env = Some table ->
  Registry.registry_set env name entry st =
  ({| Registry.__sources__ := Registry.__sources__ st;
      Registry.__registry__ :=
        <[env := <[name := entry]> table]> (Registry.__registry__ st) |}, Ok tt).
Proof. intros H. unfold Registry.registry_set. by rewrite H. Qed.

(** X1. Registering a name that is not yet registered, when the default
    table exists, succeeds, records the factory in both tables, and a
    following [configure] for the default environment replaces that entry
    by the factory bound to the options. *)
Theorem register_then_configure (factory : Registry.Factory) (name : string)
    (options : dict) (st : Registry.state) (table : gmap string Registry.Factory) :
  Registry.__sources__ st !! name = None ->
  Registry.__registry__ st !! "default" = Some table ->
  exists st1 st2 source,
    Registry.register factory name None st = (st1, Ok source) /\
    Registry.name source = name /\
    Registry.factory source = factory /\
    Registry.__sources__ st1 = <[name := factory]> (Registry.__sources__ st) /\
    Registry.__registry__ st1
      = <["default" := <[name := factory]> table]> (Registry.__registry__ st) /\
    Registry.configure name "default" options st1 = (st2, Ok source) /\
    Registry.__sources__ st2 = Registry.__sources__ st1 /\
    Registry.__registry__ st2
      = <["default" := <[name := Registry.partial factory options]> table]>
          (Registry.__registry__ st).
Proof.
  intros Hfresh Hdefault.
  eexists _, _, {| Registry.name := name; Registry.factory := factory |}.
  unfold Registry.register. rewrite Hfresh.
  erewrite registry_set_spec by exact Hdefault.
  split; [reflexivity|]. do 4 (split; [reflexivity|]).
  rewrite configure_spec. cbn [Registry.__sources__ Registry.__registry__].
  rewrite !lookup_insert_eq.
  split; [reflexivity|]. split; [reflexivity|].
  cbn [Registry.__registry__]. by rewrite !insert_insert_eq.
Qed.

Lemma register_then_configure_sample :
  exists st1 st2 source,
    Registry.register (Samples.constant_factory []) "vault" None Registry.initial
    = (st1, Ok source) /\
    Registry.configure "vault" "default" [("token", VStr "t")] st1 = (st2, Ok source).
Proof.
  destruct (register_then_configure (Samples.constant_factory []) "vault"
              [("token", VStr "t")] Registry.initial Registry.initial_sources)
    as (st1 & st2 & source & H1 & _ & _ & _ & _ & H2 & _).
  - unfold Registry.initial, Registry.initial_sources. cbn [Registry.__sources__].
    rewrite !lookup_insert_ne by discriminate. apply lookup_empty.
  - unfold Registry.initial. cbn [Registry.__registry__]. apply lookup_insert_eq.
  - by exists st1, st2, source.
Defined.

(** X2. A registration whose configuration names an environment without a
    table raises [KeyError] for it, yet the name stays registered: the
    factory is in both tables and registering the name again raises the
    already-registered error. *)
Theorem register_with_unknown_environment_is_not_undone
    (factory : Registry.Factory) (name env : string) (options : dict)
    (rest : list (string * dict)) (st : Registry.state)
    (table : gmap string Registry.Factory) :
  Registry.__sources__ st !! name = None ->
  Registry.__registry__ st !! "default" = Some table ->
  Registry.__registry__ st !! env = None ->
  exists st1,
    Registry.register factory name (Some ((env, options) :: rest)) st
    = (st1, Raise (KeyError env)) /\
    Registry.__sources__ st1 !! name = Some factory /\
    (exists table1, Registry.__registry__ st1 !! "default" = Some table1 /\
                    table1 !! name = Some factory) /\
    forall factory' configuration,
      Registry.register factory' name configuration st1
      = (st1, Raise (ValueError (Registry.already_registered_message name))).
Proof.
  intros Hfresh Hdefault Henv.
  assert (env <> "default") as Hne by congruence.
  eexists. unfold Registry.register at 1. rewrite Hfresh.
  erewrite registry_set_spec by exact Hdefault.
  cbn [Registry.configure_all]. unfold Registry.Source_configure, Registry.registry_set.
  cbn [Registry.__registry__ Registry.__sources__ Registry.name Registry.factory].
  rewrite lookup_insert_ne by congruence. rewrite Henv.
  split; [reflexivity|]. cbn [Registry.__registry__ Registry.__sources__].
  split; [apply lookup_insert_eq|].
  split; [eexists; split; [apply lookup_insert_eq|apply lookup_insert_eq]|].
  intros factory' configuration. unfold Registry.register.
  cbn [Registry.__sources__]. by rewrite lookup_insert_eq.
Qed.

Lemma register_with_unknown_environment_sample :
  exists st1,
    Registry.register (Samples.constant_factory []) "vault"
      (Some [("prod", [("token", VStr "t")])]) Registry.initial
    = (st1, Raise (KeyError "prod")) /\
    Registry.__sources__ st1 !! "vault" = Some (Samples.constant_factory []).
Proof.
  destruct (register_with_unknown_environment_is_not_undone
              (Samples.constant_factory []) "vault" "prod" [("token", VStr "t")] []
              Registry.initial Registry.initial_sources)
    as (st1 & H1 & H2 & _).
  - unfold Registry.initial, Registry.initial_sources. cbn [Registry.__sources__].
    rewrite !lookup_insert_ne by discriminate. apply lookup_empty.
  - unfold Registry.initial. cbn [Registry.__registry__]. apply lookup_insert_eq.
  - apply initial_registry_prod.
  - by exists st1.
Defined.

(** X3. For a registered name and an environment that has a table,
    configuring twice is the same as configuring once with the options of
    the second call: the entry is the base factory bound to those options,
    and the other names and environments are left alone. *)
Theorem configure_last_call_wins (name env : string) (options1 options2 : dict)
    (st : Registry.state) (factory : Registry.Factory)
    (table : gmap string Registry.Factory) :
  Registry.__sources__ st !! name = Some factory ->
  Registry.__registry__ st !! env = Some table ->
  exists st1 st2 source,
    Registry.configure name env options1 st = (st1, Ok source) /\
    Registry.configure name env options2 st1 = (st2, Ok source) /\
    Registry.configure name env options2 st = (st2, Ok source) /\
    Registry.factory source = factory /\
    Registry.__sources__ st2 = Registry.__sources__ st /\
    (exists table2,
       Registry.__registry__ st2 !! env = Some table2 /\
       table2 !! name = Some (Registry.partial factory options2) /\
       forall name', name' <> name -> table2 !! name' = table !! name') /\
    forall env', env' <> env ->
      Registry.__registry__ st2 !! env' = Registry.__registry__ st !! env'.
Proof.
  intros Hname Henv.
  eexists _, _, {| Registry.name := name; Registry.factory := factory |}.
  split; [by rewrite configure_spec, Hname, Henv|].
  rewrite !configure_spec. cbn [Registry.__sources__ Registry.__registry__].
  rewrite Hname, Henv, lookup_insert_eq.
  split; [reflexivity|].
  split; [by rewrite !insert_insert_eq|].
  split; [reflexivity|]. cbn [Registry.__sources__ Registry.__registry__].
  split; [reflexivity|]. split.
  - eexists. rewrite !insert_insert_eq. split; [apply lookup_insert_eq|].
    split; [apply lookup_insert_eq|]. intros name' Hne. by apply lookup_insert_ne.
  - intros env' Hne. rewrite !insert_insert_eq. by apply lookup_insert_ne.
Qed.

Lemma configure_last_call_wins_sample :
  exists st1 st2 source,
    Registry.configure "env" "default" [("env_prefix", VStr "A_")] Registry.initial
    = (st1, Ok source) /\
    Registry.configure "env" "default" [("env_prefix", VStr "B_")] st1 = (st2, Ok source) /\
    Registry.configure "env" "default" [("env_prefix", VStr "B_")] Registry.initial
    = (st2, Ok source).
Proof.
  destruct (configure_last_call_wins "env" "default"
              [("env_prefix", VStr "A_")] [("env_prefix", VStr "B_")]
              Registry.initial Registry.EnvSource_factory Registry.initial_sources)
    as (st1 & st2 & source & H1 & H2 & H3 & _).
  - apply initial_sources_env.
  - unfold Registry.initial. cbn [Registry.__registry__]. apply lookup_insert_eq.
  - by exists st1, st2, source.
Defined.

(** ** settings.py: the active table, unknown names, binding of options *)

Lemma lower_char_idempotent (c : ascii) :
  PyStr.lower_char (PyStr.lower_char c) = PyStr.lower_char c.
Proof. destruct c as [[] [] [] [] [] [] [] []]; reflexivity. Qed.

Lemma lower_idempotent (s : string) : PyStr.lower (PyStr.lower s) = PyStr.lower s.
Proof.
  induction s as [|c s IH]; [reflexivity|].
  cbn [PyStr.lower]. by rewrite lower_char_idempotent, IH.
Qed.

Lemma active_environment_independent (reg reg' : Registry.state)
    (cfg : Settings.Config) (rt : Runtime) :
  fst (Settings.active_sources reg cfg rt) = fst (Settings.active_sources reg' cfg rt).
Proof. reflexivity. Qed.

(** X4. The active environment is always lower case: it is its own lower-
    casing, [get_server_env] returns [local] when [SERVER_ENV] is not set,
    and a table registered under a name with an upper-case letter is never
    the active one. *)
Theorem active_environment_is_lower_case (reg : Registry.state)
    (cfg : Settings.Config) (rt : Runtime) :
  PyStr.lower (fst (Settings.active_sources reg cfg rt))
  = fst (Settings.active_sources reg cfg rt) /\
  PyStr.lower (Settings.get_server_env rt) = Settings.get_server_env rt /\
  (PyDict.get "SERVER_ENV" (os_environ rt) = None ->
   Settings.get_server_env rt = "local") /\
  forall env, PyStr.lower env <> env -> fst (Settings.active_sources reg cfg rt) <> env.
Proof.
  assert (PyStr.lower (fst (Settings.active_sources reg cfg rt))
          = fst (Settings.active_sources reg cfg rt)) as H.
  { unfold Settings.active_sources. cbn [fst].
    destruct (Settings.server_env cfg); [apply lower_idempotent..|reflexivity]. }
  split; [exact H|]. split; [apply lower_idempotent|].
  split; [intros E; unfold Settings.get_server_env; by rewrite E|].
  intros env Henv E. rewrite E in H. contradiction.
Qed.

Lemma active_environment_sample :
  Settings.get_server_env (Samples.process [("HOME", "/root")] []) = "local" /\
  fst (Settings.active_sources Registry.initial Samples.config_AB (Samples.process [] []))
  <> "Prod".
Proof.
  destruct (active_environment_is_lower_case Registry.initial Samples.config_AB
              (Samples.process [("HOME", "/root")] [])) as (_ & _ & H & _).
  destruct (active_environment_is_lower_case Registry.initial Samples.config_AB
              (Samples.process [] [])) as (_ & _ & _ & H').
  split; [apply H; reflexivity|apply H'; discriminate].
Defined.

Lemma registry_set_only_default (env name : string) (entry : Registry.Factory)
    (st : Registry.state) :
  only_default st -> only_default (fst (Registry.registry_set env name entry st)).
Proof.
  intros Hst. unfold Registry.registry_set.
  destruct (Registry.__registry__ st !! env) as [table|] eqn:Henv; [|exact Hst].
  assert (env = "default") as -> by (apply Hst; by rewrite Henv).
  intros env'. cbn [fst Registry.__registry__].
  destruct (decide (env' = "default")) as [->|Hne].
  - rewrite lookup_insert_eq. split; [reflexivity|by eexists].
  - rewrite lookup_insert_ne by congruence. apply Hst.
Qed.

Lemma Source_configure_only_default (self : Registry.Source) (env : string)
    (options : dict) (st : Registry.state) :
  only_default st -> only_default (fst (Registry.Source_configure self env options st)).
Proof.
  intros Hst. unfold Registry.Source_configure.
  pose proof (registry_set_only_default env (Registry.name self)
                (Registry.partial (Registry.factory self) options) st Hst) as H.
  by destruct (Registry.registry_set _ _ _ st) as [st' [[]|e]].
Qed.

Lemma configure_all_only_default (source : Registry.Source)
    (configuration : list (string * dict)) (st : Registry.state) :
  only_default st -> only_default (fst (Registry.configure_all source configuration st)).
Proof.
  revert st. induction configuration as [|[env options] rest IH]; intros st Hst;
    [exact Hst|].
  cbn [Registry.configure_all].
  pose proof (Source_configure_only_default source env options st Hst) as H.
  destruct (Registry.Source_configure source env options st) as [st' [s|e]];
    [by apply IH|exact H].
Qed.

Lemma register_only_default (factory : Registry.Factory) (name : string)
    (configuration : option (list (string * dict))) (st : Registry.state) :
  only_default st ->
  only_default (fst (Registry.register factory name configuration st)).
Proof.
  intros Hst. unfold Registry.register.
  destruct (Registry.__sources__ st !! name); [exact Hst|].
  match goal with
  | |- context [Registry.registry_set ?e ?n ?f ?s] =>
      pose proof (registry_set_only_default e n f s Hst) as H;
      destruct (Registry.registry_set e n f s) as [st2 [[]|e']]
  end; [|exact H].
  destruct configuration as [[|c cs]|]; [exact H| |exact H].
  pose proof (configure_all_only_default
                {| Registry.name := name; Registry.factory := factory |}
                (c :: cs) st2 H) as H'.
  by destruct (Registry.configure_all _ (c :: cs) st2) as [st3 [[]|e']].
Qed.

Lemma configure_only_default (name env : string) (options : dict)
    (st : Registry.state) :
  only_default st -> only_default (fst (Registry.configure name env options st)).
Proof.
  intros Hst. unfold Registry.configure.
  destruct (Registry.__sources__ st !! name) as [factory|]; [|exact Hst].
  pose proof (registry_set_only_default env name (Registry.partial factory options)
                st Hst) as H.
  by destruct (Registry.registry_set _ _ _ st) as [st' [[]|e]].
Qed.

Lemma reachable_only_default (st : Registry.state) : reachable st -> only_default st.
Proof.
  induction 1 as [|factory name configuration st _ IH|name env options st _ IH
                  |self env options st _ IH].
  - intros env. unfold Registry.initial. cbn [Registry.__registry__].
    destruct (decide (env = "default")) as [->|Hne].
    + rewrite lookup_insert_eq. split; [reflexivity|by eexists].
    + rewrite lookup_insert_ne by congruence. rewrite lookup_empty.
      split; [by intros [? ?]|contradiction].
  - by apply register_only_default.
  - by apply configure_only_default.
  - by apply Source_configure_only_default.
Qed.

(** X5. On every state the module reaches from its initial tables through
    [register], [configure] and [Source.configure], the registry holds the
    table of [default] and no other; so the active table of every
    configuration is the default table, whatever the server environment,
    and [configure] and [Source.configure] succeed for the environment
    [default] only. *)
Theorem reachable_registry_holds_only_default (st : Registry.state) :
  reachable st ->
  (forall env : string,
     is_Some (Registry.__registry__ st !! env) <-> env = "default") /\
  (forall (cfg : Settings.Config) (rt : Runtime),
     snd (Settings.active_sources st cfg rt)
     = default ∅ (Registry.__registry__ st !! "default")) /\
  (forall (name env : string) (options : dict) (st' : Registry.state)
          (source : Registry.Source),
     Registry.configure name env options st = (st', Ok source) ->
     env = "default") /\
  (forall (self : Registry.Source) (env : string) (options : dict)
          (st' : Registry.state) (source : Registry.Source),
     Registry.Source_configure self env options st = (st', Ok source) ->
     env = "default").
Proof.
  intros Hreach. pose proof (reachable_only_default st Hreach) as Hst.
  split; [exact Hst|]. split; [|split].
  - intros cfg rt. unfold Settings.active_sources. cbn [snd].
    match goal with
    | |- default ∅ (_ !! ?e) ∪ _ = _ => destruct (decide (e = "default")) as [->|Hne]
    end.
    + apply (idemp_L (∪)).
    + match goal with
      | |- default ∅ (?r !! ?e) ∪ _ = _ => destruct (r !! e) as [table|] eqn:E
      end.
      * exfalso. apply Hne, Hst. by rewrite E.
      * cbn [default from_option id]. apply (left_id_L ∅ (∪)).
  - intros name env options st' source. rewrite configure_spec.
    destruct (Registry.__sources__ st !! name); [|discriminate].
    destruct (Registry.__registry__ st !! env) as [table|] eqn:E; [|discriminate].
    intros _. apply Hst. by rewrite E.
  - intros self env options st' source.
    unfold Registry.Source_configure, Registry.registry_set.
    destruct (Registry.__registry__ st !! env) as [table|] eqn:E; [|discriminate].
    intros _. apply Hst. by rewrite E.
Qed.

Lemma reachable_registry_sample :
  snd (Settings.active_sources
         (Samples.registry_AB [("x", VInt 1)] [("x", VInt 2)])
         Samples.config_AB (Samples.process [] []))
  = default ∅ (Registry.__registry__
                 (Samples.registry_AB [("x", VInt 1)] [("x", VInt 2)]) !! "default").
Proof.
  apply (reachable_registry_holds_only_default
           (Samples.registry_AB [("x", VInt 1)] [("x", VInt 2)])).
  unfold Samples.registry_AB.
  apply reachable_register, reachable_register, reachable_initial.
Defined.

(** ** The pipeline: unknown names and the construction of the sources *)

Lemma find_app_first {A} (P : A -> bool) (l1 l2 : list A) (x : A) :
  forallb (fun y => negb (P y)) l1 = true -> P x = true ->
  find P (l1 ++ x :: l2) = Some x.
Proof.
  induction l1 as [|y l1 IH]; cbn [app find forallb]; intros H Hx.
  - by rewrite Hx.
  - apply andb_prop in H as [Hy H]. apply negb_true_iff in Hy. rewrite Hy. by apply IH.
Qed.

(** X6. When the first configured source name that is absent from the
    active table is not the empty string, [_build_values] raises the not-
    found [ValueError] for that name, without any warning. *)
Theorem build_values_unknown_source (reg : Registry.state) (cfg : Settings.Config)
    (rt : Runtime) (model : Model) (values : dict)
    (known rest : list string) (unk : string) :
  Settings.sources cfg = known ++ unk :: rest ->
  (forall s, In s known ->
     is_Some (snd (Settings.active_sources reg cfg rt) !! s)) ->
  snd (Settings.active_sources reg cfg rt) !! unk = None ->
  unk <> EmptyString ->
  Settings._build_values reg cfg rt model values
  = ([], Raise (ValueError (Settings.not_found_message unk))).
Proof.
  intros Hsplit Hknown Hunk Hne.
  unfold Settings._build_values, Settings.collect_mappings, Settings.build_sources.
  destruct (Settings.active_sources reg cfg rt) as [server_env sources_] eqn:Hactive.
  cbn [snd] in *. rewrite Hsplit, (find_app_first _ known rest unk).
  - destruct unk; [congruence|reflexivity].
  - apply forallb_forall. intros s Hs. rewrite negb_involutive.
    apply bool_decide_eq_true. by apply Hknown.
  - apply negb_true_iff, bool_decide_eq_false. rewrite Hunk. by intros [? ?].
Qed.

Lemma initial_active_table_local (members : dict) (names : list string) (rt : Runtime) :
  snd (Settings.active_sources Registry.initial
         {| Settings.sources := names;
            Settings.server_env := Settings.ServerEnvStr "local";
            Settings.getmembers := members |} rt)
  = Registry.initial_sources.
Proof.
  unfold Settings.active_sources, Registry.initial.
  cbn [snd Settings.server_env Registry.__registry__].
  change (PyStr.lower "local") with "local".
  rewrite lookup_insert_ne by discriminate. rewrite lookup_empty, lookup_insert_eq.
  cbn [default from_option id]. apply (left_id_L ∅ (∪)).
Qed.

Lemma build_values_unknown_source_sample :
  Settings._build_values Registry.initial
    {| Settings.sources := ["env"; "vault"; "ini"];
       Settings.server_env := Settings.ServerEnvStr "local";
       Settings.getmembers := [] |}
    (Samples.process [] []) (Samples.model_of []) []
  = ([], Raise (ValueError (Settings.not_found_message "vault"))).
Proof.
  apply (build_values_unknown_source Registry.initial _ _ _ _ ["env"] ["ini"] "vault").
  - reflexivity.
  - intros s [<-|[]]. rewrite initial_active_table_local, initial_sources_env. by eexists.
  - rewrite initial_active_table_local. unfold Registry.initial_sources.
    rewrite !lookup_insert_ne by discriminate. apply lookup_empty.
  - discriminate.
Defined.

(** X7. With no source configured, [_build_values] returns the caller's
    values unchanged, with no warning and no error, whatever the registry
    holds. *)
Theorem build_values_without_sources (reg : Registry.state) (cfg : Settings.Config)
    (rt : Runtime) (model : Model) (values : dict) :
  Settings.sources cfg = [] ->
  Settings._build_values reg cfg rt model values = ([], Ok values).
Proof.
  intros Hnone.
  unfold Settings._build_values, Settings.collect_mappings, Settings.build_sources.
  destruct (Settings.active_sources reg cfg rt) as [server_env sources_].
  rewrite Hnone. reflexivity.
Qed.

Lemma build_values_without_sources_sample :
  Settings._build_values Registry.initial
    {| Settings.sources := [];
       Settings.server_env := Settings.ServerEnvStr "local";
       Settings.getmembers := [] |}
    (Samples.process [] []) (Samples.model_of []) [("x", VInt 1)]
  = ([], Ok [("x", VInt 1)]).
Proof. apply build_values_without_sources. reflexivity. Defined.

Lemma check_keywords_bound {A} (params : list string) (options : dict) (a : A) :
  Registry.check_keywords params
    (filter (fun nv => existsb (String.eqb (fst nv)) params) options) a = Ok a.
Proof.
  unfold Registry.check_keywords.
  replace (forallb _ _) with true; [reflexivity|]. symmetry.
  apply forallb_forall. intros kv Hkv. apply list_elem_of_In, list_elem_of_filter in Hkv.
  destruct Hkv as [HP _]. by apply Is_true_true in HP.
Qed.

(** X8. The three built-in factories are constructed successfully from any
    option bag: only the options their signature names are passed, so no
    unexpected keyword reaches them. *)
Theorem builtin_sources_accept_any_options (sources_ : gmap string Registry.Factory)
    (options : dict) (s : string) (factory : Registry.Factory) :
  sources_ !! s = Some factory ->
  In factory [Registry.EnvSource_factory; Registry.IniFileSource_factory;
              Registry.SecretsSource_factory] ->
  exists source, Settings.instantiate sources_ options s = ([], Ok source).
Proof.
  intros Hs Hin. unfold Settings.instantiate. rewrite Hs.
  destruct Hin as [<-|[<-|[<-|[]]]];
    unfold Registry.EnvSource_factory, Registry.IniFileSource_factory,
      Registry.SecretsSource_factory;
    cbn [Registry.parameters Registry.construct];
    rewrite check_keywords_bound; eauto.
Qed.

Lemma builtin_sources_accept_any_options_sample :
  exists source,
    Settings.instantiate Registry.initial_sources
      [("arbitrary_types_allowed", VBool true); ("case_sensitive", VBool false)] "env"
    = ([], Ok source).
Proof.
  apply (builtin_sources_accept_any_options _ _ _ Registry.EnvSource_factory).
  - apply initial_sources_env.
  - by left.
Defined.

(** X9. For a singleton class with an empty cache, a call whose
    construction succeeds caches the instance, and every later call
    returns that instance whatever its arguments; without the singleton
    flag the cache is not touched. *)
Theorem singleton_returns_the_first_instance {Inst : Type} (cls : string)
    (instances : gmap string Inst) (construct construct' : dict -> result Inst)
    (kwargs kwargs' : dict) (instance : Inst) :
  construct kwargs = Ok instance ->
  instances !! cls = None ->
  exists instances',
    Settings.SettingsMeta_call cls true instances construct kwargs
    = (instances', Ok instance) /\
    Settings.SettingsMeta_call cls true instances' construct' kwargs'
    = (instances', Ok instance) /\
    Settings.SettingsMeta_call cls false instances construct kwargs
    = (instances, Ok instance).
Proof.
  intros Hconstruct Hfresh. exists (<[cls := instance]> instances).
  unfold Settings.SettingsMeta_call. cbn [negb].
  rewrite Hfresh, Hconstruct, lookup_insert_eq. by repeat split.
Qed.

Lemma singleton_returns_the_first_instance_sample :
  exists instances',
    Settings.SettingsMeta_call "AppSettings" true (∅ : gmap string dict)
      (fun kw => Ok kw) [("x", VInt 1)]
    = (instances', Ok [("x", VInt 1)]) /\
    Settings.SettingsMeta_call "AppSettings" true instances'
      (fun kw => Ok kw) [("x", VInt 2)]
    = (instances', Ok [("x", VInt 1)]).
Proof.
  destruct (singleton_returns_the_first_instance "AppSettings" (∅ : gmap string dict)
              (fun kw => Ok kw) (fun kw => Ok kw) [("x", VInt 1)] [("x", VInt 2)]
              [("x", VInt 1)] eq_refl (lookup_empty _))
    as (instances' & H1 & H2 & _).
  by exists instances'.
Defined.

(** ** EnvSource: lookup by candidate names *)

Lemma call_named_unfold (self : EnvSource.t) (model : Model)
    (env_vars : EnvSource.env_map) (field : ModelField) (d : dict) :
  EnvSource.call_named self model env_vars field d =
  let env_names := env_candidates self field in
  let '(env_name, env_val) := EnvSource.first_present env_vars env_names EmptyString in
  let '(is_complex, allow_json_failure) := EnvSource.field_is_complex field in
  if is_complex then
    match env_val with
    | None =>
        bind (EnvSource.explode_env_vars env_vars env_names (EnvSource.env_nested_delimiter self))
          (fun env_val_built =>
             if truthy (VDict env_val_built)
             then ret (PyDict.set (alias field) (VDict env_val_built) d)
             else ret d)
    | Some raw =>
        bind (match json_loads model raw with
              | Some decoded => ret decoded
              | None =>
                  if negb allow_json_failure
                  then raise (SettingsError (json_error_message env_name))
                  else ret (VStr raw)
              end)
          (fun env_val =>
             match env_val with
             | VDict decoded =>
                 bind (EnvSource.explode_env_vars env_vars env_names
                         (EnvSource.env_nested_delimiter self))
                   (fun exploded =>
                      ret (PyDict.set (alias field) (VDict (deep_update decoded [exploded])) d))
             | _ => ret (PyDict.set (alias field) env_val d)
             end)
    end
  else
    match env_val with
    | Some raw => ret (PyDict.set (alias field) (VStr raw) d)
    | None => ret d
    end.
Proof. reflexivity. Qed.

Lemma first_present_found (env_vars : EnvSource.env_map)
    (before after : list string) (n v init : string) :
  all_absent env_vars before = true ->
  PyDict.get n env_vars = Some (Some v) ->
  EnvSource.first_present env_vars (before ++ n :: after) init = (n, Some v).
Proof.
  revert init. induction before as [|m before IH]; intros init Habs Hn.
  - cbn [app EnvSource.first_present]. by rewrite Hn.
  - cbn [all_absent forallb] in Habs. apply andb_prop in Habs as [Hm Habs].
    cbn [app EnvSource.first_present].
    destruct (PyDict.get m env_vars) as [[?|]|]; [discriminate|by apply IH..].
Qed.

Lemma first_present_none (env_vars : EnvSource.env_map) (names : list string)
    (init : string) :
  all_absent env_vars names = true ->
  snd (EnvSource.first_present env_vars names init) = None.
Proof.
  revert init. induction names as [|m names IH]; intros init Habs; [reflexivity|].
  cbn [all_absent forallb] in Habs. apply andb_prop in Habs as [Hm Habs].
  cbn [EnvSource.first_present].
  destruct (PyDict.get m env_vars) as [[?|]|]; [discriminate|by apply IH..].
Qed.

(** X10. For a field that is not complex, [EnvSource] assigns the value of
    the first candidate name, in declaration order, that holds a string,
    and leaves the mapping unchanged when no candidate does. *)
Theorem env_scalar_field_takes_first_present_candidate
    (self : EnvSource.t) (model : Model) (env_vars : EnvSource.env_map)
    (field : ModelField) (d : dict) :
  EnvSource.field_is_complex field = (false, false) ->
  (forall before after n v,
     env_candidates self field = before ++ n :: after ->
     all_absent env_vars before = true ->
     PyDict.get n env_vars = Some (Some v) ->
     EnvSource.call_named self model env_vars field d
     = ret (PyDict.set (alias field) (VStr v) d)) /\
  (all_absent env_vars (env_candidates self field) = true ->
   EnvSource.call_named self model env_vars field d = ret d).
Proof.
  intros Hscalar. split.
  - intros before after n v Hsplit Habs Hn.
    rewrite call_named_unfold. cbv zeta.
    rewrite Hsplit, (first_present_found _ _ _ _ _ _ Habs Hn), Hscalar. reflexivity.
  - intros Habs. rewrite call_named_unfold. cbv zeta.
    pose proof (first_present_none env_vars _ EmptyString Habs) as Hnone.
    destruct (EnvSource.first_present _ _ _) as [env_name env_val].
    cbn [snd] in Hnone. subst env_val. by rewrite Hscalar.
Qed.

Lemma env_scalar_field_first_candidate_sample :
  EnvSource.call_named (EnvSource.init None None None (Some "APP_") (Some true))
    (Samples.model_of []) [("APP_b", Some "2"); ("APP_c", Some "3")]
    (Samples.multi_name_field "token" ["a"; "b"; "c"]) []
  = ret [("token", VStr "2")].
Proof.
  destruct (env_scalar_field_takes_first_present_candidate
              (EnvSource.init None None None (Some "APP_") (Some true))
              (Samples.model_of []) [("APP_b", Some "2"); ("APP_c", Some "3")]
              (Samples.multi_name_field "token" ["a"; "b"; "c"]) [] eq_refl) as [H _].
  apply (H ["APP_a"] ["APP_c"] "APP_b" "2"); reflexivity.
Defined.

(** X11. For a field that is itself complex, a value that fails JSON
    decoding raises the settings error that names the candidate under
    which the value was found. *)
Theorem env_complex_field_json_failure_names_the_candidate
    (self : EnvSource.t) (model : Model) (env_vars : EnvSource.env_map)
    (field : ModelField) (d : dict) (before after : list string) (n raw : string) :
  is_complex field = true ->
  env_candidates self field = before ++ n :: after ->
  all_absent env_vars before = true ->
  PyDict.get n env_vars = Some (Some raw) ->
  json_loads model raw = None ->
  EnvSource.call_named self model env_vars field d
  = raise (SettingsError (json_error_message n)).
Proof.
  intros Hcomplex Hsplit Habs Hn Hjson.
  rewrite call_named_unfold. cbv zeta.
  rewrite Hsplit, (first_present_found _ _ _ _ _ _ Habs Hn).
  unfold EnvSource.field_is_complex. rewrite Hcomplex, Hjson. reflexivity.
Qed.

Lemma env_complex_field_json_failure_sample :
  EnvSource.call_named (EnvSource.init None None (Some "__") None (Some true))
    (Samples.model_of []) [("db", Some "{broken")]
    (Samples.complex_field "db") []
  = raise (SettingsError (json_error_message "db")).
Proof.
  apply (env_complex_field_json_failure_names_the_candidate
           (EnvSource.init None None (Some "__") None (Some true))
           (Samples.model_of []) [("db", Some "{broken")]
           (Samples.complex_field "db") [] [] [] "db" "{broken");
    reflexivity.
Defined.

Lemma for_each_skip {A B} (l : list A) (body : B -> A -> M B) (acc : B) :
  (forall x a, In x l -> body a x = ret a) -> for_each l body acc = ret acc.
Proof.
  induction l as [|x l IH]; intros H; [reflexivity|].
  rewrite for_each_cons, (H x acc) by (by left). rewrite bind_ret_l.
  apply IH. intros y a Hy. apply H. by right.
Qed.

Lemma explode_nothing_prefixed (env_vars : EnvSource.env_map) (names : list string)
    (delimiter : option string) :
  no_prefixed_variable env_vars names delimiter = true ->
  EnvSource.explode_env_vars env_vars names delimiter = ret [].
Proof.
  intros H. unfold EnvSource.explode_env_vars. apply for_each_skip.
  intros [n v] a Hin. unfold no_prefixed_variable in H.
  rewrite forallb_forall in H. specialize (H _ Hin). cbn [fst] in H.
  by rewrite H.
Qed.

(** X12. A complex field for which no candidate holds a value and no
    variable name starts with a candidate followed by the delimiter gets
    no entry. *)
Theorem env_complex_field_without_variables_gets_no_entry
    (self : EnvSource.t) (model : Model) (env_vars : EnvSource.env_map)
    (field : ModelField) (d : dict) :
  fst (EnvSource.field_is_complex field) = true ->
  all_absent env_vars (env_candidates self field) = true ->
  no_prefixed_variable env_vars (env_candidates self field)
    (EnvSource.env_nested_delimiter self) = true ->
  EnvSource.call_named self model env_vars field d = ret d.
Proof.
  intros Hcomplex Habs Hnone. rewrite call_named_unfold. cbv zeta.
  pose proof (first_present_none env_vars _ EmptyString Habs) as Hfound.
  destruct (EnvSource.first_present _ _ _) as [env_name env_val].
  cbn [snd] in Hfound. subst env_val.
  destruct (EnvSource.field_is_complex field) as [c allow].
  cbn [fst] in Hcomplex. subst c.
  rewrite (explode_nothing_prefixed _ _ _ Hnone), bind_ret_l. reflexivity.
Qed.

Lemma env_complex_field_without_variables_sample :
  EnvSource.call_named (EnvSource.init None None None None (Some true))
    (Samples.model_of []) [("PATH", Some "/bin"); ("HOME", Some "/root")]
    (Samples.complex_field "db") [("x", VInt 1)]
  = ret [("x", VInt 1)].
Proof.
  apply (env_complex_field_without_variables_gets_no_entry
           (EnvSource.init None None None None (Some true))
           (Samples.model_of []) [("PATH", Some "/bin"); ("HOME", Some "/root")]
           (Samples.complex_field "db") [("x", VInt 1)]);
    reflexivity.
Defined.

(** ** EnvSource: nested assignment *)

(** X13. After a successful nested assignment, walking the keys and then
    the last key finds the assigned value, and the entries under the other
    top-level keys are unchanged. *)
Theorem set_nested_then_get_nested (keys : list string) (last_key : string)
    (env_val : value) (env_var result : dict) :
  EnvSource.set_nested keys last_key env_val env_var = Ok result ->
  get_nested keys last_key result = Some env_val /\
  forall k, k <> hd last_key keys -> PyDict.get k result = PyDict.get k env_var.
Proof.
  revert env_var result. induction keys as [|key keys IH]; intros env_var result.
  - cbn [EnvSource.set_nested get_nested hd]. intros [= <-].
    split; [apply get_set_eq|]. intros k Hk. apply get_set_ne. congruence.
  - cbn [EnvSource.set_nested get_nested hd].
    destruct (PyDict.get key env_var) as [[| | | | |sub]|] eqn:Hkey;
      try (destruct keys; discriminate).
    + destruct (EnvSource.set_nested keys last_key env_val sub) as [sub'|] eqn:Hsub;
        [|discriminate].
      intros [= <-]. rewrite get_set_eq.
      split; [by apply (IH sub sub')|]. intros k Hk. apply get_set_ne. congruence.
    + destruct (EnvSource.set_nested keys last_key env_val []) as [sub'|] eqn:Hsub;
        [|discriminate].
      intros [= <-]. rewrite get_set_eq.
      split; [by apply (IH [] sub')|]. intros k Hk. apply get_set_ne. congruence.
Qed.

Lemma set_nested_then_get_nested_sample :
  get_nested ["pool"] "size" [("host", VStr "h"); ("pool", VDict [("size", VStr "5")])]
  = Some (VStr "5").
Proof.
  apply (set_nested_then_get_nested ["pool"] "size" (VStr "5") [("host", VStr "h")]).
  reflexivity.
Defined.

(** A scalar on the path makes the assignment fail; nothing else does. *)
Lemma set_nested_fails_on_scalar (keys : list string) (last_key : string)
    (env_val : value) (env_var : dict) (e : exn) :
  EnvSource.set_nested keys last_key env_val env_var = Raise e ->
  keys <> [] /\ (e = TypeError \/ e = AttributeError).
Proof.
  revert env_var. induction keys as [|key keys IH]; intros env_var; [discriminate|].
  cbn [EnvSource.set_nested]. split; [discriminate|]. revert H.
  destruct (PyDict.get key env_var) as [[| | | | |sub]|];
    try (destruct keys; intros [= <-]; tauto).
  - destruct (EnvSource.set_nested keys last_key env_val sub) eqn:Hsub; [discriminate|].
    intros [= <-]. by apply IH in Hsub as [_ ?].
  - destruct (EnvSource.set_nested keys last_key env_val []) eqn:Hsub; [discriminate|].
    intros [= <-]. by apply IH in Hsub as [_ ?].
Qed.

(** ** Dictionaries built by successive assignments *)

Section dict_update.
Context {K V : Type} `{EqDecision K}.
Implicit Types (d e : list (K * V)) (k : K) (v : V).

Lemma get_app k d e :
  PyDict.get k (d ++ e) =
  match PyDict.get k d with Some v => Some v | None => PyDict.get k e end.
Proof.
  induction d as [|[k' v'] d IH]; [reflexivity|].
  cbn [app PyDict.get]. by destruct (decide (k = k')).
Qed.

(** The last assignment to a key is the one that stays. *)
Lemma update_get k d e :
  PyDict.get k (PyDict.update d e) =
  match PyDict.get k (rev e) with Some v => Some v | None => PyDict.get k d end.
Proof.
  unfold PyDict.update. revert d.
  induction e as [|[k' v'] e IH]; intros d; [reflexivity|].
  cbn [fold_left fst snd rev]. rewrite IH, get_app. cbn [PyDict.get].
  destruct (PyDict.get k (rev e)); [reflexivity|].
  rewrite get_set. destruct (decide (k = k')), (decide (k' = k)); congruence.
Qed.

Lemma get_rev_wf k d : PyDict.wf d -> PyDict.get k (rev d) = PyDict.get k d.
Proof.
  unfold PyDict.wf. induction d as [|[k' v'] d IH]; intros Hwf; [reflexivity|].
  cbn [map fst] in Hwf. apply NoDup_cons in Hwf as [Hnotin Hwf].
  cbn [rev PyDict.get]. rewrite get_app, (IH Hwf). cbn [PyDict.get].
  destruct (decide (k = k')) as [->|]; [|by destruct (PyDict.get k d)].
  replace (PyDict.get k' d) with (@None V); [reflexivity|].
  symmetry. apply get_None_notin. intros Hin. by apply Hnotin, list_elem_of_In.
Qed.

Lemma get_after_last k v (before after : list (K * V)) :
  ~ In k (map fst after) ->
  PyDict.get k (rev (before ++ (k, v) :: after)) = Some v.
Proof.
  intros Hnotin. rewrite rev_app_distr. cbn [rev]. rewrite <- app_assoc, get_app.
  replace (PyDict.get k (rev after)) with (@None V).
  - cbn [app PyDict.get]. by destruct (decide (k = k)).
  - symmetry. apply get_None_notin. rewrite map_rev. intros Hin.
    by apply Hnotin, in_rev.
Qed.
End dict_update.

Lemma get_map_some (k : string) (l : list (string * string)) :
  PyDict.get k (map (fun kv => (fst kv, Some (snd kv))) l)
  = option_map Some (PyDict.get k l).
Proof.
  induction l as [|[k' v'] l IH]; [reflexivity|].
  cbn [map PyDict.get fst snd]. by destruct (decide (k = k')).
Qed.

Lemma map_some_wf (l : list (string * string)) :
  PyDict.wf l -> PyDict.wf (map (fun kv => (fst kv, Some (snd kv))) l).
Proof. unfold PyDict.wf. by rewrite map_map. Qed.

Lemma lower_keys_update {V} (items : list (string * V)) :
  EnvSource.lower_keys items
  = PyDict.update [] (map (fun kv => (PyStr.lower (fst kv), snd kv)) items).
Proof.
  unfold EnvSource.lower_keys, PyDict.update. generalize (@nil (string * V)) as acc.
  induction items as [|kv items IH]; intros acc; [reflexivity|].
  cbn [map fold_left fst snd]. apply IH.
Qed.

(** ** EnvSource: the environment and the dotenv file *)

(** X14. For a case-sensitive source with an existing dotenv file, a name
    set in the process environment keeps its process value and a name set
    only in the file gets the file's value. *)
Theorem env_file_yields_to_process_environment (self : EnvSource.t) (rt : Runtime)
    (env_path : string) (parse : string -> list (string * option string)) :
  EnvSource.case_sensitive self = true ->
  EnvSource.env_file self = Some env_path ->
  path_is_file rt env_path = true ->
  dotenv_values rt = Some parse ->
  PyDict.wf (os_environ rt) ->
  exists env_vars,
    EnvSource.load_env_vars self rt = ret env_vars /\
    forall k,
      PyDict.get k env_vars =
      match PyDict.get k (os_environ rt) with
      | Some v => Some (Some v)
      | None => PyDict.get k (PyDict.update [] (parse env_path))
      end.
Proof.
  intros Hcs Hfile Hisfile Hdotenv Hwf.
  unfold EnvSource.load_env_vars, EnvSource._read_env_file.
  rewrite Hcs, Hfile, Hisfile, Hdotenv. cbn [negb]. rewrite bind_ret_l.
  eexists. split; [reflexivity|]. intros k.
  rewrite update_get, (get_rev_wf _ _ (map_some_wf _ Hwf)), get_map_some.
  by destruct (PyDict.get k (os_environ rt)).
Qed.

Lemma env_file_yields_to_process_environment_sample :
  exists env_vars,
    EnvSource.load_env_vars (EnvSource.init (Some ".env") None None None (Some true))
      Samples.dotenv_process = ret env_vars /\
    PyDict.get "HOST" env_vars = Some (Some "live") /\
    PyDict.get "PORT" env_vars = Some (Some "80").
Proof.
  destruct (env_file_yields_to_process_environment
              (EnvSource.init (Some ".env") None None None (Some true))
              Samples.dotenv_process ".env" Samples.dotenv_parse
              eq_refl eq_refl eq_refl eq_refl) as (env_vars & H & Hget).
  - apply (bool_decide_unpack _). vm_compute. exact I.
  - exists env_vars. split; [exact H|]. split; [apply (Hget "HOST")|apply (Hget "PORT")].
Defined.

(** X15. A configured dotenv path that is not a regular file is ignored,
    with the same variables as without it; when the file exists and
    python-dotenv is missing the call raises [ImportError]. *)
Theorem env_file_missing_or_unreadable (self : EnvSource.t) (rt : Runtime)
    (env_path : string) :
  EnvSource.env_file self = Some env_path ->
  (path_is_file rt env_path = false ->
   EnvSource.load_env_vars self rt
   = EnvSource.load_env_vars
       (EnvSource.init None None None None (Some (EnvSource.case_sensitive self))) rt /\
   exists env_vars, EnvSource.load_env_vars self rt = ret env_vars) /\
  (path_is_file rt env_path = true -> dotenv_values rt = None ->
   forall model,
     EnvSource.call self rt model
     = raise (ImportError "python-dotenv is not installed")).
Proof.
  intros Hfile. split.
  - intros Habsent. unfold EnvSource.load_env_vars.
    rewrite Hfile, Habsent. cbn [EnvSource.init EnvSource.env_file EnvSource.case_sensitive].
    split; [reflexivity|]. by eexists.
  - intros Hisfile Hdotenv model.
    unfold EnvSource.call, EnvSource.load_env_vars, EnvSource._read_env_file.
    by rewrite Hfile, Hisfile, Hdotenv.
Qed.

Lemma env_file_missing_or_unreadable_sample :
  (exists env_vars,
     EnvSource.load_env_vars (EnvSource.init (Some ".env.local") None None None None)
       (Samples.process [("A", "1")] []) = ret env_vars) /\
  EnvSource.call (EnvSource.init (Some ".env") None None None None)
    (Samples.process [] [(".env", RegularFile "A=1")]) (Samples.model_of [])
  = raise (ImportError "python-dotenv is not installed").
Proof.
  split.
  - apply (env_file_missing_or_unreadable
             (EnvSource.init (Some ".env.local") None None None None)
             (Samples.process [("A", "1")] []) ".env.local" eq_refl).
    reflexivity.
  - apply (env_file_missing_or_unreadable
             (EnvSource.init (Some ".env") None None None None)
             (Samples.process [] [(".env", RegularFile "A=1")]) ".env" eq_refl);
      reflexivity.
Defined.

(** X16. A case-insensitive [EnvSource] finds the variable of a scalar
    field whatever the case of its name: the value is that of the last
    variable whose lower-cased name is the lower-cased field name. *)
Theorem env_case_insensitive_lookup_ignores_case (rt : Runtime) (model : Model)
    (field : ModelField) (before after : list (string * string)) (key v : string) :
  fields model = [field] ->
  EnvSource.field_is_complex field = (false, false) ->
  extra_matchfull field = None ->
  extra_env field = None ->
  os_environ rt = before ++ (key, v) :: after ->
  PyStr.lower key = PyStr.lower (name field) ->
  forallb (fun kv => negb (String.eqb (PyStr.lower (fst kv)) (PyStr.lower (name field))))
    after = true ->
  EnvSource.call (EnvSource.init None None None None (Some false)) rt model
  = ret [(alias field, VStr v)].
Proof.
  intros Hfields Hscalar Hpattern Hnames Henv Hkey Hlater.
  unfold EnvSource.call, EnvSource.load_env_vars.
  cbn [EnvSource.init EnvSource.case_sensitive EnvSource.env_file].
  rewrite bind_ret_l, Hfields. cbn [for_each]. rewrite Hpattern.
  rewrite call_named_unfold. cbv zeta.
  assert (env_candidates (EnvSource.init None None None None (Some false)) field
          = [] ++ PyStr.lower (name field) :: []) as ->.
  { unfold env_candidates, _get_source_names. rewrite Hnames. reflexivity. }
  rewrite (first_present_found _ [] [] (PyStr.lower (name field)) v), Hscalar.
  - by rewrite bind_ret_l.
  - reflexivity.
  - rewrite lower_keys_update, update_get, Henv, !map_app. cbn [map fst snd].
    rewrite Hkey, get_after_last; [reflexivity|].
    rewrite !map_map. cbn [fst]. intros Hin. apply in_map_iff in Hin as (kv & E & Hkv).
    rewrite forallb_forall in Hlater. specialize (Hlater _ Hkv).
    apply negb_true_iff, String.eqb_neq in Hlater. congruence.
Qed.

Lemma env_case_insensitive_lookup_sample :
  EnvSource.call (EnvSource.init None None None None (Some false))
    (Samples.process [("PATH", "/bin"); ("Foo", "bar")] [])
    (Samples.model_of [Samples.scalar_field "foo"])
  = ret [("foo", VStr "bar")].
Proof.
  apply (env_case_insensitive_lookup_ignores_case
           (Samples.process [("PATH", "/bin"); ("Foo", "bar")] [])
           (Samples.model_of [Samples.scalar_field "foo"])
           (Samples.scalar_field "foo") [("PATH", "/bin")] [] "Foo" "bar");
    reflexivity.
Defined.

(** ** SecretsSource: schemas without structured fields *)




(** The file [key] cannot be decoded: reading it raises, although the field
    is a scalar. *)
Example secrets_source_undecodable_file :
  SecretsSource.call (SecretsSource.init (Some "/run/secrets") None)
    (Samples.process [] Samples.broken_secrets_files)
    (Samples.model_of [Samples.scalar_field "key"])
  = ([], Raise UnicodeDecodeError).
Proof. reflexivity. Qed.

(** ** IniFileSource *)

(** X18. [IniFileSource] returns an empty mapping when no file is
    configured, raises the does-not-exist error for a missing path, the
    not-a-file error for a path that is not a regular file, and the
    missing-section error for an explicit default section the file does
    not have. *)
Theorem ini_source_file_checks (rt : Runtime) (model : Model)
    (encoding section : option string) (case_sensitive : option bool) :
  IniFileSource.call (IniFileSource.init None encoding section case_sensitive) rt model
  = ([], Ok []) /\
  forall ini_file : string,
    let source := IniFileSource.init (Some ini_file) encoding section case_sensitive in
    (path_exists rt ini_file = false ->
     IniFileSource.call source rt model
     = raise (SettingsError (IniFileSource.missing_file_message ini_file))) /\
    (path_exists rt ini_file = true -> path_is_file rt ini_file = false ->
     IniFileSource.call source rt model
     = raise (SettingsError (IniFileSource.not_a_file_message ini_file))) /\
    (forall parser s,
       path_is_file rt ini_file = true ->
       configparser_read rt ini_file = Ok parser ->
       section = Some s ->
       ~ In s (IniFileSource.sections parser) ->
       IniFileSource.call source rt model
       = raise (SettingsError (IniFileSource.missing_section_message s))).
Proof.
  split; [reflexivity|]. intros ini_file source. unfold source, IniFileSource.call.
  cbn [IniFileSource.init IniFileSource.ini_file IniFileSource.ini_default_section].
  split; [by intros ->|]. split; [by intros -> ->|].
  intros parser s Hfile Hread -> Hnot.
  assert (path_exists rt ini_file = true) as ->.
  { unfold path_exists, path_is_file in *. by destruct (fs rt ini_file). }
  rewrite Hfile, Hread. cbn [negb]. unfold lift.
  change (@pair (list string) (result IniDoc) [] (Ok parser)) with (ret parser).
  rewrite bind_ret_l.
  replace (existsb (String.eqb s) (IniFileSource.sections parser)) with false;
    [reflexivity|].
  symmetry. apply not_true_is_false. intros Hex. apply Hnot.
  apply existsb_exists in Hex as (x & Hx & E). apply String.eqb_eq in E. by subst.
Qed.

Lemma ini_source_file_checks_sample :
  IniFileSource.call (IniFileSource.init (Some "/etc/none.ini") None None None)
    Samples.ini_process (Samples.model_of [])
  = raise (SettingsError (IniFileSource.missing_file_message "/etc/none.ini")) /\
  IniFileSource.call (IniFileSource.init (Some "/etc/app.ini") None (Some "db") None)
    Samples.ini_process (Samples.model_of [])
  = raise (SettingsError (IniFileSource.missing_section_message "db")).
Proof.
  split.
  - destruct (ini_source_file_checks Samples.ini_process (Samples.model_of [])
                None None None) as [_ H].
    destruct (H "/etc/none.ini") as (H1 & _). apply H1. reflexivity.
  - destruct (ini_source_file_checks Samples.ini_process (Samples.model_of [])
                None (Some "db") None) as [_ H].
    destruct (H "/etc/app.ini") as (_ & _ & H3).
    apply (H3 Samples.ini_doc "db"); [reflexivity..|].
    intros [E|[]]. discriminate.
Defined.

(** What [call] returns once the file has been read. *)
Lemma ini_call_ok (self : IniFileSource.t) (rt : Runtime) (model : Model) (m : dict) :
  outcome (IniFileSource.call self rt model) = Ok m ->
  (IniFileSource.ini_file self = None /\ m = []) \/
  exists path parser,
    IniFileSource.ini_file self = Some path /\
    configparser_read rt path = Ok parser /\
    m = fold_left (IniFileSource.call_field self parser
                     match IniFileSource.ini_default_section self with
                     | Some s => s
                     | None => IniFileSource.default_section
                     end)
          (fields model) [].
Proof.
  unfold IniFileSource.call.
  destruct (IniFileSource.ini_file self) as [ini_file|]; [|intros [= <-]; by left].
  destruct (negb (path_exists rt ini_file)); [discriminate|].
  destruct (negb (path_is_file rt ini_file)); [discriminate|].
  destruct (configparser_read rt ini_file) as [parser|] eqn:Hread; [|discriminate].
  unfold lift. change (@pair (list string) (result IniDoc) [] (Ok parser)) with (ret parser).
  rewrite bind_ret_l.
  destruct (IniFileSource.ini_default_section self) as [s|].
  - destruct (negb (existsb (String.eqb s) (IniFileSource.sections parser)));
      [discriminate|].
    rewrite bind_ret_l. intros [= <-]. right. by exists ini_file, parser.
  - rewrite bind_ret_l. intros [= <-]. right. by exists ini_file, parser.
Qed.

(** X19. Every value in the mapping [IniFileSource] returns is a non-empty
    string: INI values are never decoded. *)
Theorem ini_values_are_non_empty_strings (self : IniFileSource.t) (rt : Runtime)
    (model : Model) (m : dict) (k : string) (v : value) :
  outcome (IniFileSource.call self rt model) = Ok m ->
  PyDict.get k m = Some v ->
  exists s, v = VStr s /\ s <> EmptyString.
Proof.
  intros Hcall.
  apply ini_call_ok in Hcall as [[_ ->]|(path & parser & _ & _ & ->)]; [discriminate|].
  set (ds := match IniFileSource.ini_default_section self with
             | Some s => s | None => IniFileSource.default_section end).
  clearbody ds. revert k v.
  assert (forall gs acc,
             (forall k v, PyDict.get k acc = Some v -> exists s, v = VStr s /\ s <> EmptyString) ->
             forall k v,
               PyDict.get k (fold_left (IniFileSource.call_field self parser ds) gs acc)
               = Some v ->
               exists s, v = VStr s /\ s <> EmptyString) as Hfold.
  { induction gs as [|g gs IH]; intros acc Hacc; [exact Hacc|].
    cbn [fold_left]. apply IH. intros k v. rewrite ini_call_field_spec.
    destruct (IniFileSource.parser_get _ _ _) as [value|]; [|apply Hacc].
    destruct value as [|c value]; cbn [PyStr.truthy]; [apply Hacc|].
    rewrite get_set. destruct (decide (alias g = k)); [|apply Hacc].
    intros [= <-]. by eexists. }
  apply Hfold. intros k v. discriminate.
Qed.

Lemma ini_values_are_non_empty_strings_sample :
  exists s, VStr "80" = VStr s /\ s <> EmptyString.
Proof.
  apply (ini_values_are_non_empty_strings
           (IniFileSource.init (Some "/etc/app.ini") None (Some "app") None)
           Samples.ini_process
           (Samples.model_of [Samples.ini_field "name" "app" "name";
                              Samples.ini_field "port" "app" "port"])
           [("port", VStr "80")] "port" (VStr "80"));
    reflexivity.
Defined.

Lemma lower_not_DEFAULT (s : string) : PyStr.lower s <> IniFileSource.default_section.
Proof.
  intros E. pose proof (lower_idempotent s) as H. rewrite E in H. discriminate.
Qed.

Lemma parser_get_lower_section (parser : IniDoc) (section key : string) :
  (forall s, In s (IniFileSource.sections parser) -> PyStr.lower s <> s) ->
  IniFileSource.parser_get parser (PyStr.lower section) key = None.
Proof.
  intros Hupper. unfold IniFileSource.parser_get.
  replace (PyDict.get (PyStr.lower section) (ini_sections parser))
    with (@None (list (string * string))).
  - replace (String.eqb (PyStr.lower section) IniFileSource.default_section) with false;
      [reflexivity|].
    symmetry. apply String.eqb_neq, lower_not_DEFAULT.
  - symmetry. apply get_None_notin. intros Hin.
    apply (Hupper _ Hin). apply lower_idempotent.
Qed.

(** X20. A case-insensitive [IniFileSource] looks sections up under their
    lower-cased names, so for a file in which every section name has an
    upper-case letter it returns an empty mapping, the values of the
    parser's default section included. *)
Theorem ini_case_insensitive_needs_lower_case_sections (rt : Runtime) (model : Model)
    (path : string) (encoding section : option string) (parser : IniDoc) (m : dict) :
  configparser_read rt path = Ok parser ->
  (forall s, In s (IniFileSource.sections parser) -> PyStr.lower s <> s) ->
  outcome (IniFileSource.call
             (IniFileSource.init (Some path) encoding section (Some false)) rt model)
  = Ok m ->
  m = [].
Proof.
  intros Hread Hupper Hcall.
  apply ini_call_ok in Hcall as [[_ ->]|(path' & parser' & [= <-] & Hread' & ->)];
    [reflexivity|].
  rewrite Hread in Hread'. injection Hread' as <-.
  generalize (match IniFileSource.ini_default_section
                      (IniFileSource.init (Some path) encoding section (Some false)) with
              | Some s => s
              | None => IniFileSource.default_section
              end) as ds.
  intros ds. induction (fields model) as [|g gs IH] using rev_ind; [reflexivity|].
  rewrite fold_left_app. cbn [fold_left]. rewrite IH.
  unfold IniFileSource.call_field.
  cbn [IniFileSource.init IniFileSource.case_sensitive negb].
  by rewrite parser_get_lower_section.
Qed.

Lemma ini_case_insensitive_sample :
  exists m,
    outcome (IniFileSource.call
               (IniFileSource.init (Some "/etc/caps.ini") None None (Some false))
               Samples.caps_ini_process
               (Samples.model_of [Samples.scalar_field "name";
                                  Samples.ini_field "port" "App" "port"])) = Ok m /\
    m = [].
Proof.
  eexists. split; [reflexivity|].
  apply (ini_case_insensitive_needs_lower_case_sections
           Samples.caps_ini_process
           (Samples.model_of [Samples.scalar_field "name";
                              Samples.ini_field "port" "App" "port"])
           "/etc/caps.ini" None None Samples.caps_ini_doc []).
  - reflexivity.
  - intros s [<-|[]]. discriminate.
  - reflexivity.
Defined.

(** X21. With unique aliases, a field whose section and key hold a non-
    empty value gets that string under its alias. *)
Theorem ini_present_value_is_assigned (self : IniFileSource.t) (rt : Runtime)
    (model : Model) (path : string) (parser : IniDoc) (field : ModelField)
    (m : dict) (value : string) :
  IniFileSource.ini_file self = Some path ->
  configparser_read rt path = Ok parser ->
  outcome (IniFileSource.call self rt model) = Ok m ->
  In field (fields model) ->
  (forall g, In g (fields model) -> alias g = alias field -> g = field) ->
  IniFileSource.parser_get parser
    (ini_section_of self
       (match IniFileSource.ini_default_section self with
        | Some s => s
        | None => IniFileSource.default_section
        end) field)
    (ini_key_of self field) = Some value ->
  value <> EmptyString ->
  PyDict.get (alias field) m = Some (VStr value).
Proof.
  intros Hfile Hread Hcall Hin Huniq Hvalue Hne.
  apply ini_call_ok in Hcall as [[E _]|(path' & parser' & Hfile' & Hread' & ->)];
    [congruence|].
  rewrite Hfile in Hfile'. injection Hfile' as <-.
  rewrite Hread in Hread'. injection Hread' as <-.
  set (ds := match IniFileSource.ini_default_section self with
             | Some s => s | None => IniFileSource.default_section end) in *.
  assert (forall acc, IniFileSource.call_field self parser ds acc field
                      = PyDict.set (alias field) (VStr value) acc) as Hfield.
  { intros acc. rewrite ini_call_field_spec, Hvalue. by destruct value. }
  clear Hvalue. apply in_split in Hin as (l1 & l2 & Hsplit). rewrite Hsplit in Huniq |- *.
  rewrite fold_left_app. cbn [fold_left]. rewrite Hfield.
  assert (forall gs acc,
             (forall g, In g gs -> alias g = alias field -> g = field) ->
             PyDict.get (alias field) acc = Some (VStr value) ->
             PyDict.get (alias field)
               (fold_left (IniFileSource.call_field self parser ds) gs acc)
             = Some (VStr value)) as Hkeep.
  { induction gs as [|g gs IH]; intros acc Hfs Hacc; [exact Hacc|].
    cbn [fold_left]. apply IH; [intros; apply Hfs; [by right|done]|].
    destruct (decide (alias g = alias field)) as [E|E].
    - rewrite (Hfs g (or_introl eq_refl) E), Hfield. apply get_set_eq.
    - rewrite ini_call_field_spec.
      destruct (IniFileSource.parser_get _ _ _) as [v|]; [|exact Hacc].
      destruct (PyStr.truthy v); [|exact Hacc]. by rewrite get_set_ne. }
  apply Hkeep; [|apply get_set_eq].
  intros g Hg. apply Huniq. apply in_or_app. right. by right.
Qed.

Lemma ini_present_value_is_assigned_sample :
  PyDict.get "port" [("port", VStr "80")] = Some (VStr "80").
Proof.
  apply (ini_present_value_is_assigned
           (IniFileSource.init (Some "/etc/app.ini") None (Some "app") None)
           Samples.ini_process
           (Samples.model_of [Samples.ini_field "name" "app" "name";
                              Samples.ini_field "port" "app" "port"])
           "/etc/app.ini" Samples.ini_doc (Samples.ini_field "port" "app" "port")
           [("port", VStr "80")] "80");
    try reflexivity.
  - simpl. tauto.
  - intros g [<-|[<-|[]]]; [discriminate|reflexivity].
  - discriminate.
Defined.

(** ** DelimitedList: size of a parsed list *)

Lemma split_go_char_length (k : ascii) (s cur : string) :
  length (PyStr.split_go (String k EmptyString) 0 cur s)
  = S (count_occ ascii_dec (list_ascii_of_string s) k).
Proof.
  revert cur. induction s as [|c s IH]; intros cur; [reflexivity|].
  cbn [PyStr.split_go String.prefix list_ascii_of_string count_occ String.length].
  destruct (ascii_dec k c) as [->|Hne].
  - destruct (ascii_dec c c); [|congruence].
    destruct s; cbn [String.prefix]; cbn [length Nat.sub]; by rewrite IH.
  - destruct (ascii_dec c k); [congruence|]. apply IH.
Qed.

Lemma separator_char (v : string) :
  exists k, DelimitedList.separator v = String k EmptyString.
Proof.
  rewrite separator_unfold. destruct (find is_candidate _) as [[k n]|]; by eexists.
Qed.

(** X22. A non-empty string parses to one element more than the number of
    occurrences of the detected separator. *)
Theorem delimited_list_length (v : string) :
  v <> EmptyString ->
  exists parsed k,
    DelimitedList.validate v = Ok parsed /\
    DelimitedList.separator v = String k EmptyString /\
    DelimitedList.len parsed = S (occurrences k v).
Proof.
  intros Hne. destruct (separator_char v) as [k Hk].
  unfold DelimitedList.validate. rewrite Hk.
  destruct v as [|c v]; [congruence|]. cbn [PyStr.truthy negb PyStr.split].
  eexists _, k. split; [reflexivity|]. split; [reflexivity|].
  unfold DelimitedList.len. cbn [DelimitedList.init DelimitedList._list].
  rewrite length_map. apply split_go_char_length.
Qed.

Lemma delimited_list_length_sample :
  exists parsed k,
    DelimitedList.validate "a; b;;c" = Ok parsed /\
    DelimitedList.separator "a; b;;c" = String k EmptyString /\
    DelimitedList.len parsed = S (occurrences k "a; b;;c").
Proof. apply delimited_list_length. discriminate. Defined.

(** ** DelimitedList: element access *)

Lemma norm_index_bound (n : nat) (index : Z) (i : nat) :
  DelimitedList.norm_index n index = Some i -> i < n.
Proof.
  unfold DelimitedList.norm_index.
  destruct (0 <=? index)%Z eqn:E0.
  - destruct (index <? Z.of_nat n)%Z eqn:E1; [|discriminate]. intros [= <-]. lia.
  - destruct (- Z.of_nat n <=? index)%Z eqn:E1; [|discriminate]. intros [= <-]. lia.
Qed.

Lemma norm_index_range (n : nat) (index : Z) :
  DelimitedList.norm_index n index = None
  <-> ~ (- Z.of_nat n <= index < Z.of_nat n)%Z.
Proof.
  unfold DelimitedList.norm_index.
  destruct (0 <=? index)%Z eqn:E0.
  - destruct (index <? Z.of_nat n)%Z eqn:E1; split; try discriminate; try lia; done.
  - destruct (- Z.of_nat n <=? index)%Z eqn:E1; split; try discriminate; try lia; done.
Qed.

(** X23. For an index within the list, negative ones counting from the
    end, item assignment succeeds and reading the same index back gives
    the item, the length and delimiter unchanged; outside that range
    assignment, reading and deletion raise [IndexError]. *)
Theorem delimited_list_setitem_getitem (self : DelimitedList.t) (index : Z)
    (item : string) :
  ((- Z.of_nat (DelimitedList.len self) <= index < Z.of_nat (DelimitedList.len self))%Z ->
   exists self',
     DelimitedList.setitem self index item = Ok self' /\
     DelimitedList.getitem self' index = Ok item /\
     DelimitedList.len self' = DelimitedList.len self /\
     DelimitedList._delimiter self' = DelimitedList._delimiter self) /\
  (~ (- Z.of_nat (DelimitedList.len self) <= index < Z.of_nat (DelimitedList.len self))%Z ->
   DelimitedList.setitem self index item = Raise IndexError /\
   DelimitedList.getitem self index = Raise IndexError /\
   DelimitedList.delitem self index = Raise IndexError).
Proof.
  unfold DelimitedList.len, DelimitedList.setitem, DelimitedList.getitem,
    DelimitedList.delitem.
  split.
  - intros Hrange.
    destruct (DelimitedList.norm_index (length (DelimitedList._list self)) index)
      as [i|] eqn:Hi; [|apply norm_index_range in Hi; contradiction].
    eexists. split; [reflexivity|].
    cbn [DelimitedList._list DelimitedList._delimiter].
    rewrite length_insert, Hi.
    rewrite list_lookup_insert_eq by (by apply norm_index_bound in Hi).
    by repeat split.
  - intros Hrange. apply norm_index_range in Hrange. by rewrite Hrange.
Qed.

Lemma delimited_list_setitem_getitem_sample :
  exists self',
    DelimitedList.setitem
      {| DelimitedList._delimiter := ","; DelimitedList._list := ["a"; "b"; "c"] |}
      (-1) "z" = Ok self' /\
    DelimitedList.getitem self' (-1) = Ok "z".
Proof.
  destruct (delimited_list_setitem_getitem
              {| DelimitedList._delimiter := ","; DelimitedList._list := ["a"; "b"; "c"] |}
              (-1) "z") as [H _].
  destruct H as (self' & H1 & H2 & _); [vm_compute; split; [discriminate|reflexivity]|].
  by exists self'.
Defined.

Lemma join_snoc (sep x : string) (l : list string) :
  l <> [] ->
  PyStr.join sep (l ++ [x])
  = String.append (PyStr.join sep l) (String.append sep x).
Proof.
  induction l as [|y l IH]; [congruence|]. intros _.
  destruct l as [|z l].
  - reflexivity.
  - change ((y :: z :: l) ++ [x]) with (y :: ((z :: l) ++ [x])).
    rewrite join_cons by (by destruct l).
    rewrite IH by discriminate.
    rewrite (join_cons sep y (z :: l)) by discriminate.
    by rewrite !append_assoc.
Qed.

(** X24. [insert] grows the list by one and puts the value at the clamped
    position; an index at or beyond the length appends, and the
    serialization of a non-empty list is then extended by the delimiter
    and the value. *)
Theorem delimited_list_insert (self : DelimitedList.t) (index : Z) (value : string) :
  DelimitedList.len (DelimitedList.insert self index value)
  = S (DelimitedList.len self) /\
  DelimitedList.getitem (DelimitedList.insert self index value)
    (Z.of_nat (DelimitedList.insert_position (DelimitedList.len self) index))
  = Ok value /\
  ((Z.of_nat (DelimitedList.len self) <= index)%Z ->
   DelimitedList._list (DelimitedList.insert self index value)
   = DelimitedList._list self ++ [value] /\
   (DelimitedList._list self <> [] ->
    DelimitedList.to_str (DelimitedList.insert self index value)
    = String.append (DelimitedList.to_str self)
        (String.append (DelimitedList._delimiter self) value))).
Proof.
  unfold DelimitedList.len, DelimitedList.insert, DelimitedList.getitem,
    DelimitedList.to_str.
  cbn [DelimitedList._list DelimitedList._delimiter].
  set (l := DelimitedList._list self).
  set (i := DelimitedList.insert_position (length l) index).
  assert (i <= length l) as Hi.
  { unfold i, DelimitedList.insert_position.
    destruct (index <? 0)%Z eqn:E; [apply Z.ltb_lt in E|]; lia. }
  assert (length (take i l ++ value :: drop i l) = S (length l)) as Hlen.
  { rewrite length_app, length_take. cbn [length]. rewrite length_drop. lia. }
  split; [exact Hlen|]. split.
  - rewrite Hlen. unfold DelimitedList.norm_index.
    replace (0 <=? Z.of_nat i)%Z with true by (symmetry; apply Z.leb_le; lia).
    replace (Z.of_nat i <? Z.of_nat (S (length l)))%Z with true
      by (symmetry; apply Z.ltb_lt; lia).
    rewrite Nat2Z.id.
    rewrite lookup_app_r by (rewrite length_take; lia).
    rewrite length_take. replace (i - i `min` length l) with 0 by lia. reflexivity.
  - intros Hge.
    assert (i = length l) as ->.
    { unfold i, DelimitedList.insert_position.
      replace (index <? 0)%Z with false by (symmetry; apply Z.ltb_ge; lia). lia. }
    rewrite firstn_all, drop_all. split; [reflexivity|].
    intros Hne. by apply join_snoc.
Qed.

Lemma delimited_list_insert_sample :
  DelimitedList.to_str
    (DelimitedList.insert
       {| DelimitedList._delimiter := ";"; DelimitedList._list := ["a"; "b"] |} 10 "c")
  = "a;b;c".
Proof.
  destruct (delimited_list_insert
              {| DelimitedList._delimiter := ";"; DelimitedList._list := ["a"; "b"] |}
              10 "c") as (_ & _ & H).
  destruct H as [_ H]; [vm_compute; discriminate|].
  rewrite H; [reflexivity|discriminate].
Defined.

(** ** Uniqueness of keys through the merge *)

Section keys.
Context {K V : Type} `{EqDecision K}.

Lemma set_keys (k : K) (v : V) (d : list (K * V)) :
  map fst (PyDict.set k v d) =
  match PyDict.get k d with
  | Some _ => map fst d
  | None => map fst d ++ [k]
  end.
Proof.
  induction d as [|[k' v'] d IH]; [reflexivity|].
  cbn [PyDict.set PyDict.get]. destruct (decide (k = k')) as [->|]; [reflexivity|].
  cbn [map fst]. rewrite IH. by destruct (PyDict.get k d).
Qed.

Lemma set_wf (k : K) (v : V) (d : list (K * V)) :
  PyDict.wf d -> PyDict.wf (PyDict.set k v d).
Proof.
  unfold PyDict.wf. intros Hwf. rewrite set_keys.
  destruct (PyDict.get k d) eqn:E; [exact Hwf|].
  apply NoDup_app. split; [exact Hwf|]. split; [|apply NoDup_singleton].
  intros x Hx Hk. apply list_elem_of_In in Hx. apply list_elem_of_In in Hk.
  destruct Hk as [<-|[]]. by apply get_None_notin in E.
Qed.
End keys.

Lemma deep_update1_wf (updating m : dict) :
  PyDict.wf m -> PyDict.wf (deep_update1 m updating).
Proof.
  revert m. induction updating as [|[k v] updating IH]; intros m Hwf; [exact Hwf|].
  rewrite deep_update1_step. apply IH. by apply set_wf.
Qed.

Lemma deep_update1_keeps_keys (k : string) (updating m : dict) :
  PyDict.get k m <> None -> PyDict.get k (deep_update1 m updating) <> None.
Proof.
  revert m. induction updating as [|[k' v'] updating IH]; intros m Hk; [exact Hk|].
  rewrite deep_update1_step. apply IH. rewrite get_set.
  by destruct (decide (k' = k)).
Qed.

(** X25. When the collected mappings have unique keys, so has the mapping
    [_build_values] returns, and every key of every collected mapping is a
    key of it. *)
Theorem build_values_keeps_keys_unique
    (reg : Registry.state) (cfg : Settings.Config) (rt : Runtime) (model : Model)
    (values : dict) (mappings : list dict) (merged : dict) :
  outcome (Settings.collect_mappings reg cfg rt model values) = Ok mappings ->
  outcome (Settings._build_values reg cfg rt model values) = Ok merged ->
  Forall PyDict.wf mappings ->
  PyDict.wf merged /\
  forall k m, In m mappings -> PyDict.get k m <> None -> PyDict.get k merged <> None.
Proof.
  intros Hcollect Hbuild Hwf.
  unfold Settings._build_values in Hbuild.
  rewrite (outcome_bind_of_ok _ _ _ Hcollect) in Hbuild.
  unfold Settings.merge_reversed in Hbuild.
  assert (Forall PyDict.wf (rev mappings)) as Hwf'.
  { apply Forall_forall. intros m Hm. rewrite Forall_forall in Hwf.
    apply Hwf, list_elem_of_In, in_rev. by apply list_elem_of_In. }
  assert (forall k m, In m (rev mappings) -> PyDict.get k m <> None ->
                      PyDict.get k merged <> None) as Hkeys;
    [|split; [|intros k m Hm; apply Hkeys; by apply in_rev in Hm]].
  - destruct (rev mappings) as [|m0 ups]; [discriminate|]. injection Hbuild as <-.
    unfold deep_update. clear Hwf'. revert m0.
    induction ups as [|u ups IH]; intros m0 k m Hm Hk.
    + by destruct Hm as [<-|[]].
    + cbn [fold_left]. destruct Hm as [<-|[<-|Hm]].
      * apply (IH _ k (deep_update1 m0 u)); [by left|]. by apply deep_update1_keeps_keys.
      * apply (IH _ k (deep_update1 m0 u)); [by left|].
        destruct (PyDict.get k u) as [v|] eqn:E; [|congruence].
        clear IH Hk. revert m0 E. induction u as [|[k' v'] u IHu]; intros m0 E; [discriminate|].
        rewrite deep_update1_step. cbn [PyDict.get] in E.
        destruct (decide (k = k')) as [->|Hne].
        -- apply deep_update1_keeps_keys. by rewrite get_set_eq.
        -- by apply IHu.
      * apply (IH _ k m); [by right|exact Hk].
  - destruct (rev mappings) as [|m0 ups]; [discriminate|]. injection Hbuild as <-.
    apply Forall_cons in Hwf' as [Hm0 _]. unfold deep_update. clear Hkeys. revert m0 Hm0.
    induction ups as [|u ups IH]; intros m0 Hm0; [exact Hm0|].
    cbn [fold_left]. apply IH. by apply deep_update1_wf.
Qed.

Lemma build_values_keeps_keys_unique_sample :
  PyDict.wf [("x", VInt 1); ("y", VInt 3)].
Proof.
  apply (build_values_keeps_keys_unique
           (Samples.registry_AB [("x", VInt 1)] [("x", VInt 2); ("y", VInt 3)])
           Samples.config_AB (Samples.process [] []) (Samples.model_of []) []
           [[]; [("x", VInt 1)]; [("x", VInt 2); ("y", VInt 3)]]).
  - vm_compute. reflexivity.
  - vm_compute. reflexivity.
  - apply (bool_decide_unpack _). vm_compute. exact I.
Defined.

(** ** registry.py: the handle returned by [register] and [configure] *)

(** X26. For a registered name, the handle's [configure] does exactly what
    the module-level [configure] does, on success and on failure. *)
Theorem source_handle_configures_like_configure (name env : string) (options : dict)
    (st : Registry.state) (factory : Registry.Factory) :
  Registry.__sources__ st !! name = Some factory ->
  Registry.Source_configure {| Registry.name := name; Registry.factory := factory |}
    env options st
  = Registry.configure name env options st.
Proof.
  intros Hname. unfold Registry.Source_configure, Registry.configure.
  rewrite Hname. cbn [Registry.name Registry.factory].
  by destruct (Registry.registry_set env name (Registry.partial factory options) st)
    as [st' [[]|e]].
Qed.

Lemma source_handle_configures_like_configure_sample :
  Registry.Source_configure
    {| Registry.name := "env"; Registry.factory := Registry.EnvSource_factory |}
    "prod" [] Registry.initial
  = Registry.configure "env" "prod" [] Registry.initial.
Proof.
  apply source_handle_configures_like_configure. apply initial_sources_env.
Defined.
